(** * FP5529 voice-coil actuator driver: a shallow embedding

    Source: drivers/media/platform/exynos/camera/sensor/module_framework/
            actuator/is-actuator-fp5529.c

    The driver talks to the lens actuator through three bus callbacks
    ([actuator->ixc_ops]) and sleeps between accesses.  The embedding keeps
    the C integers as [Z] with the conversions to [u8]/[u16]/[u32] written
    out, threads one [World] (hardware behind the bus, the log of bus
    accesses and sleeps, the [is_actuator] object, the sysfs debug knobs)
    through every function, and returns the C [int] results unchanged. *)

From Stdlib Require Import ZArith List Bool Lia.
From Equations Require Import Equations.
Import ListNotations.
Local Open Scope Z_scope.

Set Implicit Arguments.

(** ** C integer conversions *)

Definition to_u8 (x : Z) : Z := x mod 256.
Definition to_u16 (x : Z) : Z := x mod 65536.
Definition to_u32 (x : Z) : Z := x mod 4294967296.
Arguments to_u8 : simpl never.
Arguments to_u16 : simpl never.
Arguments to_u32 : simpl never.

(** ** Register map (lines 29-41) *)

Definition REG_IC_INFO : Z := 0x00.
Definition REG_IC_VERSION : Z := 0x01.
Definition REG_CONTROL : Z := 0x02.
Definition REG_VCM_MSB : Z := 0x03.
Definition REG_VCM_LSB : Z := 0x04.
Definition REG_STATUS : Z := 0x05.
Definition REG_ACC_MODE : Z := 0x06.
Definition REG_ACC_TIME : Z := 0x07.
Definition REG_PRESET : Z := 0x0A.
Definition REG_LAD_EN : Z := 0x0B.
Definition REG_LAD_STEP : Z := 0x0C.

Definition DEF_FP5529_FIRST_POSITION : Z := 100.
Definition DEF_FP5529_SECOND_POSITION : Z := 180.
Definition DEF_FP5529_FIRST_DELAY : Z := 20.
Definition DEF_FP5529_SECOND_DELAY : Z := 10.

(** Linux errno numbers used by the driver (asm-generic/errno-base.h). *)
Definition ENODEV : Z := 19.
Definition EINVAL : Z := 22.

(** ** Data *)

(** [struct i2c_client]: only the [adapter] pointer is inspected. *)
Record i2c_client := { adapter : bool }.

(** [struct is_actuator]: the fields the driver reads or writes.
    [client] may be NULL. *)
Record is_actuator := {
  client : option i2c_client;
  position : Z;
  max_position : Z
}.

(** [struct is_caldata_list_fp5529]: the three fields read by the
    initialisation. *)
Record is_caldata_list_fp5529 := {
  control_mode : Z;
  prescale : Z;
  acctime : Z
}.

(** [struct is_sysfs_actuator], the debug knobs returned by
    [is_get_sysfs_actuator()].  The two arrays are lists; [arr_get] reads
    one cell. *)
Record is_sysfs_actuator := {
  init_step : Z;
  init_positions : list Z;
  init_delays : list Z;
  enable_fixed : bool;
  fixed_position : Z
}.

(** [a[i]] for [0 <= i < length a].  A read past the end of the array is
    not given a meaning by the model: the statements below only rely on
    cells inside the array. *)
Definition arr_get (a : list Z) (i : Z) : Z := nth (Z.to_nat i) a 0.

(** What the recording layer sees: every bus access with the code it
    returned, and every sleep. *)
Inductive event :=
| EvWrite8 (addr val ret : Z)
| EvRead8 (addr ret val : Z)
| EvWrite16 (addr high low ret : Z)
| EvMsleep (ms : Z)
| EvUsleepRange (lo hi : Z).

(** [struct is_ixc_ops] restricted to the three callbacks in use.  [Dev] is
    the state of whatever sits behind the bus.  Each callback returns the C
    result code (negative on failure); a read also yields the byte stored
    through its [u8 *] argument. *)
Record is_ixc_ops (Dev : Type) := {
  addr8_write8 : Dev -> Z -> Z -> Z * Dev;
  addr8_read8 : Dev -> Z -> Z * Z * Dev;
  addr_data_write16 : Dev -> Z -> Z -> Z -> Z * Dev
}.

Record World (Dev : Type) := {
  hw : Dev;
  trace : list event;
  actuator : is_actuator;
  sysfs_actuator : is_sysfs_actuator
}.

(** Did the recorded bus access fail (negative result code)? *)
Definition ev_failed (e : event) : bool :=
  match e with
  | EvWrite8 _ _ r => r <? 0
  | EvRead8 _ r _ => r <? 0
  | EvWrite16 _ _ _ r => r <? 0
  | EvMsleep _ => false
  | EvUsleepRange _ _ => false
  end.

(** A planned sequence of accesses, cut right after the first failing one. *)
Fixpoint until_failure (l : list event) : list event :=
  match l with
  | [] => []
  | e :: l' => if ev_failed e then [e] else e :: until_failure l'
  end.

(** Result code of the last bus access of a log ([d] when there is none). *)
Fixpoint last_code (d : Z) (l : list event) : Z :=
  match l with
  | [] => d
  | EvWrite8 _ _ r :: l' => last_code r l'
  | EvRead8 _ r _ :: l' => last_code r l'
  | EvWrite16 _ _ _ r :: l' => last_code r l'
  | _ :: l' => last_code d l'
  end.

Definition is_status_read (e : event) : bool :=
  match e with
  | EvRead8 a _ _ => a =? REG_STATUS
  | _ => false
  end.

(** The log entry of the packed two-register write of position [p]
    (lines 190-193) that returned [ret]. *)
Definition packed_write (p ret : Z) : event :=
  EvWrite16 REG_VCM_MSB (to_u8 (Z.shiftr (Z.land p 0x300) 8))
    (to_u8 (Z.land p 0xFF)) ret.

(** What walking the caller-supplied list from cell [i] on should log when
    the writes return [codes]: each listed position written in order, each
    write followed by a sleep of the paired delay. *)
Fixpoint list_plan (s : is_sysfs_actuator) (i : Z) (codes : list Z)
    : list event :=
  match codes with
  | [] => []
  | r :: rest =>
      packed_write (to_u32 (arr_get (init_positions s) i)) r ::
      EvMsleep (to_u32 (arr_get (init_delays s) i)) ::
      list_plan s (i + 1) rest
  end.

(** Number of polls of the status register in a log. *)
Definition status_reads (l : list event) : nat :=
  length (filter is_status_read l).

(** [u32] to [s32]: the value stored in the signed [ctrl->value]. *)
Definition to_s32 (x : Z) : Z :=
  (x + 2147483648) mod 4294967296 - 2147483648.
Arguments to_s32 : simpl never.

(** [struct v4l2_control]: a [__u32 id] and a [__s32 value]. *)
Record v4l2_control := { id : Z; value : Z }.

(** Milliseconds spent in [msleep] along a log. *)
Fixpoint slept (l : list event) : Z :=
  match l with
  | [] => 0
  | EvMsleep ms :: l' => ms + slept l'
  | _ :: l' => slept l'
  end.

Definition is_write (e : event) : bool :=
  match e with
  | EvWrite8 _ _ _ => true
  | EvWrite16 _ _ _ _ => true
  | _ => false
  end.

(** The write accesses of a log, in order. *)
Definition writes (l : list event) : list event := filter is_write l.

(** What a busy-wait may log after its first sleep: a poll of the status
    register or a 10 ms sleep. *)
Definition poll_or_sleep (e : event) : Prop :=
  match e with
  | EvRead8 a _ _ => a = REG_STATUS
  | EvMsleep ms => ms = 10
  | _ => False
  end.

(** What the initial-position routine may log: a packed position write or
    a sleep. *)
Definition move_or_sleep (e : event) : Prop :=
  match e with
  | EvWrite16 a _ _ _ => a = REG_VCM_MSB
  | EvMsleep _ => True
  | _ => False
  end.

(** ** A scripted bus for concrete runs

    The device answers each access with the next [(code, byte)] pair of its
    script, and with [idle] once the script is used up. *)

Module Mock.

Record dev := { script : list (Z * Z); idle : Z * Z }.

Definition reply (d : dev) : (Z * Z) * dev :=
  match script d with
  | [] => (idle d, d)
  | r :: rest => (r, {| script := rest; idle := idle d |})
  end.

Definition ops : is_ixc_ops dev :=
  {| addr8_write8 := fun d _ _ => let (r, d') := reply d in (fst r, d');
     addr8_read8 := fun d _ => let (r, d') := reply d in (fst r, snd r, d');
     addr_data_write16 :=
       fun d _ _ _ => let (r, d') := reply d in (fst r, d') |}.

(** Values picked for the header constants in the concrete runs. *)
Definition POS_MAX : Z := 1023.
Definition PWR_ON : Z := 5000.
Definition NO_BUSY : Z := 0.
Definition BUSY : Z := 1.
Definition LANDING_FAIL : Z := -200.

Definition the_client : i2c_client := {| adapter := true |}.

Definition no_sysfs : is_sysfs_actuator :=
  {| init_step := 0; init_positions := [0; 0; 0; 0; 0];
     init_delays := [0; 0; 0; 0; 0];
     enable_fixed := false; fixed_position := 0 |}.

(** The world right after probe (lines 725-735): position 0. *)
Definition boot (d : dev) (s : is_sysfs_actuator) : World dev :=
  {| hw := d; trace := [];
     actuator := {| client := Some the_client; position := 0;
                    max_position := POS_MAX |};
     sysfs_actuator := s |}.

Definition always (r : Z * Z) : dev := {| script := []; idle := r |}.

(** Every access succeeds; the status register reads 0 (not busy). *)
Definition w_idle : World dev := boot (always (0, 0)) no_sysfs.

(** Every access succeeds; every read yields 0x01 (VCM busy). *)
Definition w_busy : World dev := boot (always (0, 1)) no_sysfs.

(** The first access succeeds and reads busy, every later one fails with
    -EIO. *)
Definition w_busy_then_dead : World dev :=
  boot {| script := [(0, 1)]; idle := (-5, 0) |} no_sysfs.

(** A soft landing on an idle bus whose final read-back is [(high, low)]:
    eleven accesses come first (status poll, two position reads, then four
    times a register write and a status poll). *)
Definition w_landing (high low : Z) : World dev :=
  boot {| script := repeat (0, 0) 11 ++ [(0, high); (0, low)];
          idle := (0, 0) |} no_sysfs.

(** Debug override enabled with a fixed position of 100. *)
Definition sysfs_fixed_100 : is_sysfs_actuator :=
  {| init_step := 0; init_positions := [0; 0; 0; 0; 0];
     init_delays := [0; 0; 0; 0; 0];
     enable_fixed := true; fixed_position := 100 |}.

(** A two-step list, the remaining cells at their initial 0. *)
Definition sysfs_two_steps : is_sysfs_actuator :=
  {| init_step := 2; init_positions := [100; 200; 0; 0; 0];
     init_delays := [10; 20; 0; 0; 0];
     enable_fixed := false; fixed_position := 0 |}.

(** A two-step list whose second position is negative. *)
Definition sysfs_negative : is_sysfs_actuator :=
  {| init_step := 2; init_positions := [100; -1; 0; 0; 0];
     init_delays := [10; 20; 0; 0; 0];
     enable_fixed := false; fixed_position := 0 |}.

(** The world of a later session: the lens was last commanded to 512. *)
Definition w_at_512 (s : is_sysfs_actuator) : World dev :=
  {| hw := always (0, 0); trace := [];
     actuator := {| client := Some the_client; position := 512;
                    max_position := POS_MAX |};
     sysfs_actuator := s |}.

Definition cal_2_3_16 : is_caldata_list_fp5529 :=
  {| control_mode := 0x2; prescale := 0x3; acctime := 0x10 |}.

(** Values picked for the control identifiers and ioctl numbers. *)
Definition CID_GET_STATUS : Z := 1.
Definition CID_SET_POSITION : Z := 2.
Definition CID_SOFT_LANDING : Z := 3.
Definition IOCTL_S_CTRL : Z := 10.
Definition IOCTL_G_CTRL : Z := 11.

(** A valid two-step list whose second position is above the maximum. *)
Definition sysfs_too_far : is_sysfs_actuator :=
  {| init_step := 2; init_positions := [100; 2000; 0; 0; 0];
     init_delays := [10; 20; 0; 0; 0];
     enable_fixed := false; fixed_position := 0 |}.

(** The status reads busy twice, then not busy. *)
Definition w_busy_twice : World dev :=
  boot {| script := [(0, 1); (0, 1)]; idle := (0, 0) |} no_sysfs.

(** An idle bus on which the position registers read back 0x01, 0x90. *)
Definition w_at_400 : World dev :=
  boot {| script := [(0, 0); (0, 0x01); (0, 0x90)]; idle := (0, 0) |}
    no_sysfs.

End Mock.

Section Driver.

Variable Dev : Type.
Variable ixc_ops : is_ixc_ops Dev.

(** Constants of is-actuator-fp5529.h and of the sensor interface headers,
    which are not part of the sources at hand. *)
Variable FP5529_POS_MAX_SIZE : Z.
Variable PWR_ON_DELAY : Z.
Variable ACTUATOR_STATUS_NO_BUSY : Z.
Variable ACTUATOR_STATUS_BUSY : Z.
Variable HW_SOFTLANDING_FAIL : Z.

Local Abbreviation World := (World Dev).

(** ** State passing *)

Definition M (A : Type) : Type := World -> A * World.

Definition mret {A} (a : A) : M A := fun w => (a, w).

Definition bind {A B} (m : M A) (k : A -> M B) : M B :=
  fun w => let (a, w1) := m w in k a w1.

Notation "x <- c ;; k" := (bind c (fun x => k))
  (at level 100, c at next level, right associativity).
Notation "' p <- c ;; k" := (bind c (fun x => let 'p := x in k))
  (at level 100, p pattern, c at next level, right associativity).
Notation "c ;; k" := (bind c (fun _ => k))
  (at level 100, right associativity).

(** [ret = f(...); if (ret < 0) goto p_err;] where [p_err] returns [ret]. *)
Notation "x <-! c ;; k" :=
  (bind c (fun x => if x <? 0 then mret x else k))
  (at level 100, c at next level, right associativity).

Definition log (e : event) (w : World) : World :=
  {| hw := hw w; trace := trace w ++ [e];
     actuator := actuator w; sysfs_actuator := sysfs_actuator w |}.

Definition set_hw (d : Dev) (w : World) : World :=
  {| hw := d; trace := trace w;
     actuator := actuator w; sysfs_actuator := sysfs_actuator w |}.

Definition with_position (p : Z) (a : is_actuator) : is_actuator :=
  {| client := client a; position := p; max_position := max_position a |}.

(** [actuator->position = p]. *)
Definition store_position (p : Z) : M unit := fun w =>
  (tt, {| hw := hw w; trace := trace w;
          actuator := with_position p (actuator w);
          sysfs_actuator := sysfs_actuator w |}).

Definition get_actuator : M is_actuator := fun w => (actuator w, w).

(** [is_get_sysfs_actuator()]. *)
Definition is_get_sysfs_actuator : M is_sysfs_actuator :=
  fun w => (sysfs_actuator w, w).

Definition msleep (ms : Z) : M unit := fun w => (tt, log (EvMsleep ms) w).

Definition usleep_range (lo hi : Z) : M unit :=
  fun w => (tt, log (EvUsleepRange lo hi) w).

(** [actuator->ixc_ops->addr8_write8(client, addr, val)], recorded. *)
Definition ixc_write8 (addr val : Z) : M Z := fun w =>
  let '(ret, d) := addr8_write8 ixc_ops (hw w) addr val in
  (ret, log (EvWrite8 addr val ret) (set_hw d w)).

(** [actuator->ixc_ops->addr8_read8(client, addr, &val)], recorded; the
    byte lands in a [u8]. *)
Definition ixc_read8 (addr : Z) : M (Z * Z) := fun w =>
  let '(ret, val, d) := addr8_read8 ixc_ops (hw w) addr in
  ((ret, to_u8 val), log (EvRead8 addr ret (to_u8 val)) (set_hw d w)).

(** [actuator->ixc_ops->addr_data_write16(client, addr, high, low)]. *)
Definition ixc_write16 (addr high low : Z) : M Z := fun w =>
  let '(ret, d) := addr_data_write16 ixc_ops (hw w) addr high low in
  (ret, log (EvWrite16 addr high low ret) (set_hw d w)).

(** ** sensor_fp5529_init (lines 48-163) *)

Definition sensor_fp5529_init (c : i2c_client)
    (cal_data : option is_caldata_list_fp5529) : M Z :=
  match cal_data with
  | None =>
      (* PD(Power Down) mode enable *)
      ret <-! ixc_write8 REG_CONTROL 0x01 ;;
      (* PD disable (normal operation mode) *)
      ret <-! ixc_write8 REG_CONTROL 0x00 ;;
      usleep_range PWR_ON_DELAY PWR_ON_DELAY ;;
      (* Ring mode enable *)
      ret <-! ixc_write8 REG_CONTROL (to_u8 (Z.shiftl 0x01 1)) ;;
      let pre_scale := 0x01 in
      ret <-! ixc_write8 REG_ACC_MODE (to_u8 pre_scale) ;;
      ret <-! ixc_write8 REG_ACC_TIME 0x36 ;;
      mret ret
  | Some cal =>
      ret <-! ixc_write8 REG_CONTROL 0x01 ;;
      ret <-! ixc_write8 REG_CONTROL 0x00 ;;
      usleep_range PWR_ON_DELAY PWR_ON_DELAY ;;
      ret <-! ixc_write8 REG_CONTROL (to_u8 (Z.shiftl 0x01 1)) ;;
      let control_mode := to_u32 (control_mode cal) in
      let pre_scale := to_u32 (prescale cal) in
      ret <-! ixc_write8 REG_ACC_MODE
                (to_u8 (Z.lor (Z.shiftl (Z.land control_mode 0xff) 5)
                              (Z.land pre_scale 0xff))) ;;
      let sac_time := to_u32 (acctime cal) in
      ret <-! ixc_write8 REG_ACC_TIME (to_u8 sac_time) ;;
      mret ret
  end.

(** ** sensor_fp5529_write_position (lines 165-197)

    [BUG_ON(!client)] makes a NULL client a precondition: the function
    receives an [i2c_client]. *)

Definition sensor_fp5529_write_position (c : i2c_client) (val : Z) : M Z :=
  if negb (adapter c) then mret (- ENODEV)
  else if FP5529_POS_MAX_SIZE <? val then mret (- EINVAL)
  else
    let val_high := to_u8 (Z.shiftr (Z.land val 0x300) 8) in
    let val_low := to_u8 (Z.land val 0x00FF) in
    ixc_write16 REG_VCM_MSB val_high val_low.

(** ** sensor_fp5529_valid_check (lines 199-220)

    The [for] loop returns 0 from inside as soon as one of the first
    [init_step] cells is negative ([Some 0]); [None] is the loop running to
    its end. *)

Fixpoint valid_check_loop (s : is_sysfs_actuator) (n : nat) (i : Z)
    : option Z :=
  match n with
  | O => None
  | S n' =>
      if arr_get (init_positions s) i <? 0 then Some 0
      else if arr_get (init_delays s) i <? 0 then Some 0
      else valid_check_loop s n' (i + 1)
  end.

Definition sensor_fp5529_valid_check (c : i2c_client) : M Z :=
  sysfs <- is_get_sysfs_actuator ;;
  if 0 <? init_step sysfs then
    match valid_check_loop sysfs (Z.to_nat (init_step sysfs)) 0 with
    | Some r => mret r
    | None => mret (init_step sysfs)
    end
  else mret 0.

(** The caller-supplied list is the first [init_step] cells of the two
    arrays.  It is rejected when absent (no step) or when one of its
    entries is negative. *)
Definition init_list_rejected (s : is_sysfs_actuator) : Prop :=
  init_step s <= 0 \/
  exists i, 0 <= i < init_step s /\
            (arr_get (init_positions s) i < 0 \/
             arr_get (init_delays s) i < 0).

Definition init_list_valid (s : is_sysfs_actuator) : Prop :=
  0 < init_step s /\
  forall i, 0 <= i < init_step s ->
            0 <= arr_get (init_positions s) i /\
            0 <= arr_get (init_delays s) i.

(** ** sensor_fp5529_init_position (lines 235-279)

    [init_position_loop] is the [for (i = 0; i < init_step; i++)] loop of
    lines 246-252; it hands back [ret] and the value of [i] it stopped at. *)

Fixpoint init_position_loop (c : i2c_client) (sysfs : is_sysfs_actuator)
    (n : nat) (i : Z) (ret : Z) : M (Z * Z) :=
  match n with
  | O => mret (ret, i)
  | S n' =>
      ret <- sensor_fp5529_write_position c
               (to_u32 (arr_get (init_positions sysfs) i)) ;;
      if ret <? 0 then mret (ret, i)
      else
        msleep (to_u32 (arr_get (init_delays sysfs) i)) ;;
        init_position_loop c sysfs n' (i + 1) ret
  end.

Definition sensor_fp5529_init_position (c : i2c_client) : M Z :=
  sysfs <- is_get_sysfs_actuator ;;
  init_step <- sensor_fp5529_valid_check c ;;
  if 0 <? init_step then
    ' (ret, i) <- init_position_loop c sysfs (Z.to_nat init_step) 0 0 ;;
    if ret <? 0 then mret ret
    else
      store_position (to_u32 (arr_get (init_positions sysfs) i)) ;;
      mret ret
  else
    ret <-! sensor_fp5529_write_position c DEF_FP5529_FIRST_POSITION ;;
    msleep DEF_FP5529_FIRST_DELAY ;;
    ret <-! sensor_fp5529_write_position c DEF_FP5529_SECOND_POSITION ;;
    msleep DEF_FP5529_SECOND_DELAY ;;
    store_position DEF_FP5529_SECOND_POSITION ;;
    mret ret.

(** ** sensor_fp5529_actuator_get_status (lines 345-384)

    [info] is the current content of the caller's [u32]; the function
    hands back the result code and the content of [*info] afterwards.  The
    cell is written only after a successful read. *)

Definition sensor_fp5529_actuator_get_status (info : Z) : M (Z * Z) :=
  a <- get_actuator ;;
  match client a with
  | None => mret (- EINVAL, info)
  | Some c =>
      ' (ret, val) <- ixc_read8 REG_STATUS ;;
      if ret <? 0 then mret (ret, info)
      else
        mret (ret,
              if Z.land val 0x3 =? 0 then ACTUATOR_STATUS_NO_BUSY
              else ACTUATOR_STATUS_BUSY)
  end.

(** ** sensor_fp5529_actuator_wait_busy (lines 386-399)

    [wait_busy_body] is one turn of the [do ... while]: lines 393-396 and
    the loop test of line 397.  The result code of the status call is
    dropped, as in the source. *)

Definition wait_busy_body (info count : Z) : M (bool * Z * Z) :=
  ' (_, info) <- sensor_fp5529_actuator_get_status info ;;
  (if info =? ACTUATOR_STATUS_BUSY then msleep 10 else mret tt) ;;
  let count := count + 1 in
  mret ((info =? ACTUATOR_STATUS_BUSY) && (count <? 15), info, count).

(** Turns of the loop still allowed by the test [count < 15]. *)
Definition polls_left (count : Z) : nat := Z.to_nat (15 - count).
Arguments polls_left : simpl never.

(** A value together with the equation that remembers where it came from. *)
Definition inspect {A} (a : A) : {b : A | a = b} := exist _ a eq_refl.

(** The loop itself; the locals [info] and [count] at loop exit are handed
    back.  The recursion is justified by the loop test: a further turn is
    taken only while [count < 15]. *)
Equations? wait_busy_loop (info count : Z) (w : World) : Z * Z * World
    by wf (polls_left count) lt :=
  wait_busy_loop info count w with inspect (wait_busy_body info count w) := {
    | exist _ (true, info', count', w') e => wait_busy_loop info' count' w';
    | exist _ (false, info', count', w') _ => (info', count', w') }.
Proof.
  revert e. unfold wait_busy_body, bind, mret.
  destruct (sensor_fp5529_actuator_get_status info w) as [[r i1] w1].
  destruct (if i1 =? ACTUATOR_STATUS_BUSY then msleep 10 else _) as [[] w2].
  intros e. injection e as Hb _ Hc _. subst count'.
  apply andb_prop in Hb. destruct Hb as [_ Hb]. apply Z.ltb_lt in Hb.
  unfold polls_left. lia.
Qed.

(** The next [n] polls of the status register, starting from hardware
    state [d], all succeed and read busy (one of the two low bits set). *)
Fixpoint busy_for (n : nat) (d : Dev) : Prop :=
  match n with
  | O => True
  | S n' =>
      let '(r, v, d') := addr8_read8 ixc_ops d REG_STATUS in
      0 <= r /\ Z.land (to_u8 v) 0x3 <> 0 /\ busy_for n' d'
  end.

(** An action that leaves the [is_actuator] object as it found it. *)
Definition keeps_actuator {A} (m : M A) : Prop :=
  forall w, actuator (snd (m w)) = actuator w.

(** [info0] stands for the unspecified initial content of the local
    [u32 info], which line 388 leaves uninitialised. *)
Definition sensor_fp5529_actuator_wait_busy (info0 : Z) : M Z :=
  let count := 0 in
  msleep 5 ;;
  _ <- wait_busy_loop info0 count ;;
  mret 0.

(** ** sensor_fp5529_actuator_soft_landing (lines 406-498)

    The body is cut in two at line 473: [soft_landing_stages] is
    lines 429-471 (first read-back, the four register writes, a busy-wait
    after each), [soft_landing_check] is the final read-back of
    lines 477-493.  [junk k] is the unspecified initial content of [info]
    in the [k]-th busy-wait. *)

Definition soft_landing_stages (junk : nat -> Z) : M Z :=
  sensor_fp5529_actuator_wait_busy (junk 0%nat) ;;
  ' (ret, pos1) <- ixc_read8 REG_VCM_MSB ;;
  if ret <? 0 then mret ret else
  ' (ret, pos2) <- ixc_read8 REG_VCM_LSB ;;
  if ret <? 0 then mret ret else
  let pos1 := to_u8 (Z.land pos1 0x03) in
  let position := to_u16 (Z.lor (Z.shiftl pos1 8) pos2) in
  (* Set the PRESET register *)
  ret <-! ixc_write8 REG_PRESET
            (to_u8 (if Z.land pos1 0x02 =? 0 then Z.shiftr position 1
                    else 0xff)) ;;
  sensor_fp5529_actuator_wait_busy (junk 1%nat) ;;
  (* Enable RING Mode *)
  ret <-! ixc_write8 REG_CONTROL 0x02 ;;
  sensor_fp5529_actuator_wait_busy (junk 2%nat) ;;
  ret <-! ixc_write8 REG_ACC_MODE (to_u8 (Z.lor (Z.shiftl 0x05 5) 0x01)) ;;
  sensor_fp5529_actuator_wait_busy (junk 3%nat) ;;
  ret <-! ixc_write8 REG_LAD_EN 0x01 ;;
  sensor_fp5529_actuator_wait_busy (junk 4%nat) ;;
  mret ret.

Definition soft_landing_check : M Z :=
  ' (ret, pos1) <- ixc_read8 REG_VCM_MSB ;;
  if ret <? 0 then mret ret else
  ' (ret, pos2) <- ixc_read8 REG_VCM_LSB ;;
  if ret <? 0 then mret ret else
  let pos1 := to_u8 (Z.land pos1 0x03) in
  let position := to_u16 (Z.lor (Z.shiftl pos1 8) pos2) in
  if 0 <? position then
    store_position position ;;
    mret HW_SOFTLANDING_FAIL
  else mret ret.

Definition sensor_fp5529_actuator_soft_landing (junk : nat -> Z) : M Z :=
  a <- get_actuator ;;
  match client a with
  | None => mret (- EINVAL)
  | Some c =>
      ret <-! soft_landing_stages junk ;;
      soft_landing_check
  end.

(** ** sensor_fp5529_actuator_set_position (lines 499-548)

    [info] is the value of [*info]. *)

Definition sensor_fp5529_actuator_set_position (info : Z) : M Z :=
  sysfs <- is_get_sysfs_actuator ;;
  a <- get_actuator ;;
  match client a with
  | None => mret (- EINVAL)
  | Some c =>
      let position := info in
      if FP5529_POS_MAX_SIZE <? position then mret (- EINVAL)
      else
        (* debug option : fixed position testing *)
        let position :=
          if enable_fixed sysfs then to_u32 (fixed_position sysfs)
          else position in
        (* position Set *)
        ret <-! sensor_fp5529_write_position c position ;;
        store_position position ;;
        mret ret
  end.

(** ** sensor_fp5529_actuator_init (lines 281-343)

    [detected] tells whether [v4l2_get_subdevdata] returned an actuator;
    [cal_data] is what the pointer computed at lines 317-318 refers to
    ([None] for a null pointer).  The error counter of the
    [USE_CAMERA_HW_BIG_DATA] build lives outside this driver and is not
    part of the world. *)

Definition sensor_fp5529_actuator_init (detected : bool)
    (cal_data : option is_caldata_list_fp5529) : M Z :=
  if negb detected then mret 0
  else
    a <- get_actuator ;;
    match client a with
    | None => mret (- EINVAL)
    | Some c =>
        (* Read into EEPROM data or default setting *)
        ret <-! sensor_fp5529_init c cal_data ;;
        ret <-! sensor_fp5529_init_position c ;;
        mret ret
    end.

(** ** The control entry points (lines 550-641)

    Control identifiers and ioctl numbers come from the framework headers;
    the soft-landing case of [s_ctrl] exists only in builds that define
    [USE_CAMERA_ACT_DRIVER_SOFT_LANDING].  The labels of a C [switch] are
    pairwise distinct, so testing them one after the other is the same. *)

Variable V4L2_CID_ACTUATOR_GET_STATUS : Z.
Variable V4L2_CID_ACTUATOR_SET_POSITION : Z.
Variable V4L2_CID_ACTUATOR_SOFT_LANDING : Z.
Variable SENSOR_IOCTL_ACT_S_CTRL : Z.
Variable SENSOR_IOCTL_ACT_G_CTRL : Z.
Variable USE_CAMERA_ACT_DRIVER_SOFT_LANDING : bool.

(** sensor_fp5529_actuator_g_ctrl (lines 550-574); hands back the control
    as the call leaves it. *)
Definition sensor_fp5529_actuator_g_ctrl (ctrl : v4l2_control)
    : M (Z * v4l2_control) :=
  let val := 0 in
  if id ctrl =? V4L2_CID_ACTUATOR_GET_STATUS then
    ' (ret, val) <- sensor_fp5529_actuator_get_status val ;;
    if ret <? 0 then mret (- EINVAL, ctrl)
    else mret (ret, {| id := id ctrl; value := to_s32 val |})
  else mret (- EINVAL, ctrl).

(** sensor_fp5529_actuator_s_ctrl (lines 576-611).  [&ctrl->value] is
    handed to the position routine as a [u32 *]. *)
Definition sensor_fp5529_actuator_s_ctrl (junk : nat -> Z)
    (ctrl : v4l2_control) : M Z :=
  if id ctrl =? V4L2_CID_ACTUATOR_SET_POSITION then
    ret <- sensor_fp5529_actuator_set_position (to_u32 (value ctrl)) ;;
    if negb (ret =? 0) then mret (- EINVAL) else mret ret
  else if USE_CAMERA_ACT_DRIVER_SOFT_LANDING
          && (id ctrl =? V4L2_CID_ACTUATOR_SOFT_LANDING) then
    ret <- sensor_fp5529_actuator_soft_landing junk ;;
    if ret =? HW_SOFTLANDING_FAIL then mret ret
    else if negb (ret =? 0) then mret (- EINVAL)
    else mret ret
  else mret (- EINVAL).

(** sensor_fp5529_actuator_ioctl (lines 613-641). *)
Definition sensor_fp5529_actuator_ioctl (junk : nat -> Z) (cmd : Z)
    (ctrl : v4l2_control) : M (Z * v4l2_control) :=
  if cmd =? SENSOR_IOCTL_ACT_S_CTRL then
    ret <- sensor_fp5529_actuator_s_ctrl junk ctrl ;;
    mret (ret, ctrl)
  else if cmd =? SENSOR_IOCTL_ACT_G_CTRL then
    sensor_fp5529_actuator_g_ctrl ctrl
  else mret (- EINVAL, ctrl).

(** The next [k] polls of the status register read busy and the one after
    them succeeds and reads not busy. *)
Fixpoint idle_after (k : nat) (d : Dev) : Prop :=
  let '(r, v, d') := addr8_read8 ixc_ops d REG_STATUS in
  match k with
  | O => 0 <= r /\ Z.land (to_u8 v) 0x3 = 0
  | S k' => 0 <= r /\ Z.land (to_u8 v) 0x3 <> 0 /\ idle_after k' d'
  end.

(** What the register programming may log: a register write or the
    power-on settle delay. *)
Definition reg_or_settle (e : event) : Prop :=
  match e with
  | EvWrite8 _ _ _ => True
  | EvUsleepRange _ _ => True
  | _ => False
  end.

(** An action whose additions to the log all satisfy [P]. *)
Definition logs (P : event -> Prop) {A} (m : M A) : Prop :=
  forall w, exists evs,
    trace (snd (m w)) = trace w ++ evs /\ Forall P evs.

(** * Properties *)

Unset Implicit Arguments.

(** ** Bookkeeping on logs *)

Lemma app_cons_assoc (A : Type) (l : list A) (a : A) (l' : list A) :
  (l ++ [a]) ++ l' = l ++ a :: l'.
Proof. rewrite <- app_assoc. reflexivity. Qed.

Lemma if_same (A : Type) (b : bool) (x : A) : (if b then x else x) = x.
Proof. destruct b; reflexivity. Qed.

(** Running one recorded bus access: name its result code and the next
    hardware state, then split on success or failure. *)
Ltac bus_step H :=
  match type of H with
  | context [addr8_write8 ?o ?d ?a ?v] =>
      let r := fresh "r" in let d' := fresh "d" in let E := fresh "E" in
      destruct (addr8_write8 o d a v) as [r d'] eqn:E; simpl in H
  | context [addr_data_write16 ?o ?d ?a ?h ?l] =>
      let r := fresh "r" in let d' := fresh "d" in let E := fresh "E" in
      destruct (addr_data_write16 o d a h l) as [r d'] eqn:E; simpl in H
  | context [addr8_read8 ?o ?d ?a] =>
      let r := fresh "r" in let v := fresh "v" in
      let d' := fresh "d" in let E := fresh "E" in
      destruct (addr8_read8 o d a) as [[r v] d'] eqn:E; simpl in H
  end.

Ltac code_split H :=
  match type of H with
  | context [if ?r <? 0 then _ else _] =>
      let L := fresh "L" in destruct (r <? 0) eqn:L; simpl in H
  end.

Ltac run_in H :=
  unfold bind, mret, ixc_write8, ixc_write16, ixc_read8, usleep_range,
    msleep, store_position, get_actuator, is_get_sysfs_actuator in H;
  simpl in H.

(** ** Position write *)

(** An out-of-range or adapter-less request never reaches the bus. *)
Lemma write_position_rejected_untouched c val w :
  adapter c = false \/ FP5529_POS_MAX_SIZE < val ->
  snd (sensor_fp5529_write_position c val w) = w /\
  fst (sensor_fp5529_write_position c val w) < 0.
Proof.
  intros H. unfold sensor_fp5529_write_position.
  destruct (adapter c); simpl.
  - destruct H as [H | H]; [discriminate |].
    apply Z.ltb_lt in H. rewrite H. unfold mret, EINVAL. simpl. split; [reflexivity | lia].
  - unfold mret, ENODEV. simpl. split; [reflexivity | lia].
Qed.

(** An accepted request is exactly one packed write of the two position
    bytes. *)
Lemma write_position_accepted c val w :
  adapter c = true -> val <= FP5529_POS_MAX_SIZE ->
  sensor_fp5529_write_position c val w =
  ixc_write16 REG_VCM_MSB (to_u8 (Z.shiftr (Z.land val 0x300) 8))
    (to_u8 (Z.land val 0xFF)) w.
Proof.
  intros Ha Hv. unfold sensor_fp5529_write_position. rewrite Ha. simpl.
  apply Z.ltb_ge in Hv. rewrite Hv. reflexivity.
Qed.

Lemma write_position_above_max c val w :
  adapter c = true -> (FP5529_POS_MAX_SIZE <? val) = true ->
  sensor_fp5529_write_position c val w = (- EINVAL, w).
Proof.
  intros Ha Hv. unfold sensor_fp5529_write_position.
  rewrite Ha, Hv. reflexivity.
Qed.

(** C3. Every target above the maximum position is refused: the call
    fails and the world (hardware state and access log alike) is exactly as
    before, so the refusal precedes any bus access; with a bus adapter in
    place the error is the range error [-EINVAL].  [probe] stores the same
    constant [FP5529_POS_MAX_SIZE] in [max_position] (line 730). *)
Theorem write_position_out_of_range c val w :
  FP5529_POS_MAX_SIZE < val ->
  snd (sensor_fp5529_write_position c val w) = w /\
  fst (sensor_fp5529_write_position c val w) < 0 /\
  (adapter c = true ->
   sensor_fp5529_write_position c val w = (- EINVAL, w)).
Proof.
  intros Hv. unfold sensor_fp5529_write_position.
  apply Z.ltb_lt in Hv. rewrite Hv.
  destruct (adapter c); simpl; unfold mret, EINVAL, ENODEV; simpl.
  - split; [reflexivity |]. split; [lia | reflexivity].
  - split; [reflexivity |]. split; [lia | discriminate].
Qed.

(** ** Register programming *)

(** The proof shared by the two branches of [sensor_fp5529_init]: run
    the five writes one after the other and, at each, close the case where
    it fails. *)
Ltac init_sequence H :=
  run_in H;
  bus_step H; code_split H;
  [ injection H as <- <-;
    match goal with L : (?r <? 0) = true |- _ =>
      exists r, 0, 0, 0, 0; simpl; rewrite L; auto end | ];
  bus_step H; code_split H;
  [ injection H as <- <-;
    match goal with
      L : (?r <? 0) = false, L0 : (?r0 <? 0) = true |- _ =>
      exists r, r0, 0, 0, 0; simpl; rewrite L, L0; simpl;
      rewrite app_cons_assoc; auto end | ];
  bus_step H; code_split H;
  [ injection H as <- <-;
    match goal with
      E : addr8_write8 _ _ _ 1 = (?r, _), E0 : addr8_write8 _ _ _ 0 = (?r0, _),
      L : (?r <? 0) = false, L0 : (?r0 <? 0) = false,
      L1 : (?r1 <? 0) = true |- _ =>
      exists r, r0, r1, 0, 0; simpl; rewrite L, L0, L1; simpl;
      rewrite !app_cons_assoc; auto end | ];
  bus_step H; code_split H;
  [ injection H as <- <-;
    match goal with
      E : addr8_write8 _ _ REG_CONTROL 1 = (?r, _),
      E0 : addr8_write8 _ _ REG_CONTROL 0 = (?r0, _),
      E1 : addr8_write8 _ _ REG_CONTROL (to_u8 _) = (?r1, _),
      L : (?r <? 0) = false, L0 : (?r0 <? 0) = false,
      L1 : (?r1 <? 0) = false, L2 : (?r2 <? 0) = true |- _ =>
      exists r, r0, r1, r2, 0; simpl; rewrite L, L0, L1, L2; simpl;
      rewrite !app_cons_assoc; auto end | ];
  bus_step H; rewrite if_same in H; injection H as <- <-;
  match goal with
    E : addr8_write8 _ _ REG_CONTROL 1 = (?r, _),
    E0 : addr8_write8 _ _ REG_CONTROL 0 = (?r0, _),
    E1 : addr8_write8 _ _ REG_CONTROL (to_u8 _) = (?r1, _),
    E2 : addr8_write8 _ _ REG_ACC_MODE _ = (?r2, _),
    E3 : addr8_write8 _ _ REG_ACC_TIME _ = (?r3, _),
    L : (?r <? 0) = false, L0 : (?r0 <? 0) = false,
    L1 : (?r1 <? 0) = false, L2 : (?r2 <? 0) = false |- _ =>
    exists r, r0, r1, r2, r3; simpl; rewrite L, L0, L1, L2; simpl;
    rewrite !app_cons_assoc;
    split; [|split]; destruct (r3 <? 0); reflexivity end.

(** C4. Without calibration data the initialisation issues PD-set,
    PD-clear, the power-on settle delay, ring-mode enable (bit 1 of the
    control register), acceleration mode 0x01 and acceleration time 0x36 in
    this order and nothing else; the sequence stops right after the first
    write that fails, and the code of the last write issued is returned. *)
Theorem init_default_sequence c w ret w' :
  sensor_fp5529_init c None w = (ret, w') ->
  exists r1 r2 r3 r4 r5,
    let plan :=
      [EvWrite8 REG_CONTROL 0x01 r1;
       EvWrite8 REG_CONTROL 0x00 r2;
       EvUsleepRange PWR_ON_DELAY PWR_ON_DELAY;
       EvWrite8 REG_CONTROL 0x02 r3;
       EvWrite8 REG_ACC_MODE 0x01 r4;
       EvWrite8 REG_ACC_TIME 0x36 r5] in
    trace w' = trace w ++ until_failure plan /\
    ret = last_code 0 (until_failure plan) /\
    actuator w' = actuator w.
Proof.
  intros H. unfold sensor_fp5529_init in H. init_sequence H.
Qed.

(** The byte written to the acceleration-mode register: masking the two
    fields to eight bits first (line 141) does not change the low byte of
    [(control_mode << 5) | prescale]. *)
Lemma acc_mode_byte cm ps :
  to_u8 (Z.lor (Z.shiftl (Z.land (to_u32 cm) 0xff) 5)
               (Z.land (to_u32 ps) 0xff)) =
  to_u8 (Z.lor (Z.shiftl cm 5) ps).
Proof.
  unfold to_u8, to_u32.
  change 256 with (2 ^ 8). change 4294967296 with (2 ^ 32).
  change 255 with (Z.ones 8).
  rewrite <- !Z.land_ones by lia.
  apply Z.bits_inj'. intros n Hn.
  rewrite !Z.land_spec, !Z.lor_spec, !Z.land_spec.
  rewrite !Z.testbit_ones_nonneg by lia.
  destruct (Z.ltb_spec n 8) as [H8 | H8];
    [| rewrite !andb_false_r; reflexivity].
  rewrite !andb_true_r.
  assert (H32 : (n <? 32) = true) by (apply Z.ltb_lt; lia).
  rewrite H32, !andb_true_r.
  destruct (Z.ltb_spec n 5) as [H5 | H5].
  - rewrite !Z.shiftl_spec_low by lia. reflexivity.
  - rewrite !Z.shiftl_spec by lia. rewrite !Z.land_spec.
    rewrite !Z.testbit_ones_nonneg by lia.
    assert (Ha : (n - 5 <? 32) = true) by (apply Z.ltb_lt; lia).
    assert (Hb : (n - 5 <? 8) = true) by (apply Z.ltb_lt; lia).
    rewrite Ha, Hb, !andb_true_r. reflexivity.
Qed.

Lemma u8_of_u32 x : to_u8 (to_u32 x) = to_u8 x.
Proof.
  unfold to_u8, to_u32.
  apply Z.mod_mod_divide. exists 16777216. reflexivity.
Qed.

Lemma to_u8_byte x : 0 <= x < 256 -> to_u8 x = x.
Proof. intros H. unfold to_u8. apply Z.mod_small. exact H. Qed.

(** C5. With calibration data the same sequence is issued with the
    acceleration-mode register set to the low byte of
    [(control_mode << 5) | prescale] and the acceleration-time register
    set to the calibration's [acctime] (a byte). *)
Theorem init_calibrated_sequence c cal w ret w' :
  0 <= acctime cal < 256 ->
  sensor_fp5529_init c (Some cal) w = (ret, w') ->
  exists r1 r2 r3 r4 r5,
    let plan :=
      [EvWrite8 REG_CONTROL 0x01 r1;
       EvWrite8 REG_CONTROL 0x00 r2;
       EvUsleepRange PWR_ON_DELAY PWR_ON_DELAY;
       EvWrite8 REG_CONTROL 0x02 r3;
       EvWrite8 REG_ACC_MODE
         (to_u8 (Z.lor (Z.shiftl (control_mode cal) 5) (prescale cal))) r4;
       EvWrite8 REG_ACC_TIME (acctime cal) r5] in
    trace w' = trace w ++ until_failure plan /\
    ret = last_code 0 (until_failure plan) /\
    actuator w' = actuator w.
Proof.
  intros Ht H. unfold sensor_fp5529_init in H.
  rewrite acc_mode_byte, u8_of_u32, (to_u8_byte _ Ht) in H.
  init_sequence H.
Qed.

(** ** Commanded position *)

(** The three ways a call of [sensor_fp5529_actuator_set_position] can end:
    refused before the bus is touched, a packed write that failed, a packed
    write that succeeded followed by the update of [actuator->position]. *)
Lemma set_position_outcomes info w ret w' :
  sensor_fp5529_actuator_set_position info w = (ret, w') ->
  (ret < 0 /\ w' = w) \/
  (exists p, trace w' = trace w ++ [packed_write p ret] /\
     ((ret < 0 /\ actuator w' = actuator w) \/
      (0 <= ret /\ actuator w' = with_position p (actuator w)))).
Proof.
  unfold sensor_fp5529_actuator_set_position. intros H. run_in H.
  destruct (client (actuator w)) as [c |].
  2:{ injection H as <- <-. left. unfold EINVAL. split; [lia | reflexivity]. }
  destruct (FP5529_POS_MAX_SIZE <? info).
  { injection H as <- <-. left. unfold EINVAL. split; [lia | reflexivity]. }
  remember (if enable_fixed (sysfs_actuator w)
            then to_u32 (fixed_position (sysfs_actuator w)) else info) as p.
  unfold sensor_fp5529_write_position in H.
  destruct (adapter c); simpl in H.
  2:{ unfold mret in H. simpl in H. injection H as <- <-. left.
      unfold ENODEV. split; [lia | reflexivity]. }
  destruct (FP5529_POS_MAX_SIZE <? p).
  { unfold mret in H. simpl in H. injection H as <- <-. left.
    unfold EINVAL. split; [lia | reflexivity]. }
  run_in H. bus_step H. code_split H; injection H as <- <-;
    right; exists p; (split; [reflexivity |]).
  - left. apply Z.ltb_lt in L. split; [exact L | reflexivity].
  - right. apply Z.ltb_ge in L. split; [exact L | reflexivity].
Qed.

(** C10. [actuator->position] changes only in a call that succeeds, and
    then the successful packed write of that very position is the access
    logged by the call; a call that fails (range rejection or failed bus
    write alike) leaves the actuator object as it was. *)
Theorem set_position_atomic info w ret w' :
  sensor_fp5529_actuator_set_position info w = (ret, w') ->
  (ret < 0 -> actuator w' = actuator w) /\
  (FP5529_POS_MAX_SIZE < info -> ret < 0 /\ w' = w) /\
  (forall p r, trace w' = trace w ++ [packed_write p r] -> r < 0 ->
     ret < 0) /\
  (0 <= ret ->
   exists p, trace w' = trace w ++ [packed_write p ret] /\
             actuator w' = with_position p (actuator w)).
Proof.
  intros H. pose proof (set_position_outcomes _ _ _ _ H) as O.
  split; [| split; [| split]].
  - intros Hr. destruct O as [[_ ->] | [p [_ [[_ Ha] | [Hs _]]]]];
      [reflexivity | exact Ha | lia].
  - intros Hi. unfold sensor_fp5529_actuator_set_position in H. run_in H.
    apply Z.ltb_lt in Hi. rewrite Hi in H.
    destruct (client (actuator w)); injection H as <- <-;
      unfold EINVAL; (split; [lia | reflexivity]).
  - intros p r Ht Hr. destruct O as [[Hneg _] | [q [Hq _]]]; [exact Hneg |].
    rewrite Hq in Ht. apply app_inv_head in Ht.
    injection Ht as _ _ ->. exact Hr.
  - intros Hr. destruct O as [[Hneg _] | [p [Hp [[Hneg _] | [_ Ha]]]]];
      try lia.
    exists p. split; assumption.
Qed.

(** C8 (as the code has it). With the debug override enabled, the
    caller-supplied target is range-checked first: a target above the
    maximum is refused without any bus access, whatever the override is.
    Only for an admissible target is the override substituted; the position
    write then validates the override value and writes it, and on success
    [actuator->position] is the override value. *)
Theorem set_position_fixed_override info w c ret w' :
  client (actuator w) = Some c -> adapter c = true ->
  enable_fixed (sysfs_actuator w) = true ->
  sensor_fp5529_actuator_set_position info w = (ret, w') ->
  let p := to_u32 (fixed_position (sysfs_actuator w)) in
  (FP5529_POS_MAX_SIZE < info -> ret = - EINVAL /\ w' = w) /\
  (info <= FP5529_POS_MAX_SIZE -> FP5529_POS_MAX_SIZE < p ->
     ret = - EINVAL /\ w' = w) /\
  (info <= FP5529_POS_MAX_SIZE -> p <= FP5529_POS_MAX_SIZE ->
     trace w' = trace w ++ [packed_write p ret] /\
     (0 <= ret -> actuator w' = with_position p (actuator w)) /\
     (ret < 0 -> actuator w' = actuator w)).
Proof.
  intros Hc Ha Hf H p.
  unfold sensor_fp5529_actuator_set_position in H. run_in H.
  rewrite Hc, Hf in H. fold p in H.
  split; [| split].
  - intros Hi. apply Z.ltb_lt in Hi. rewrite Hi in H.
    injection H as <- <-. split; reflexivity.
  - intros Hi Hp. apply Z.ltb_ge in Hi. rewrite Hi in H.
    apply Z.ltb_lt in Hp.
    rewrite (write_position_above_max _ _ w Ha Hp) in H.
    unfold EINVAL in H. simpl in H. injection H as <- <-.
    split; reflexivity.
  - intros Hi Hp. apply Z.ltb_ge in Hi. rewrite Hi in H.
    rewrite (write_position_accepted _ _ w Ha Hp) in H.
    run_in H. bus_step H. code_split H; injection H as <- <-.
    + apply Z.ltb_lt in L. split; [reflexivity |].
      split; [lia | reflexivity].
    + apply Z.ltb_ge in L. split; [reflexivity |].
      split; [reflexivity | lia].
Qed.

(** ** Initial position *)

(** A negative cell among those the loop visits makes it return 0. *)
Lemma valid_check_loop_invalid s n i k :
  i <= k < i + Z.of_nat n ->
  arr_get (init_positions s) k < 0 \/ arr_get (init_delays s) k < 0 ->
  valid_check_loop s n i = Some 0.
Proof.
  revert i. induction n as [| n IH]; intros i Hk Hneg; [lia |].
  simpl.
  destruct (Z.ltb_spec (arr_get (init_positions s) i) 0) as [Hp | Hp];
    [reflexivity |].
  destruct (Z.ltb_spec (arr_get (init_delays s) i) 0) as [Hd | Hd];
    [reflexivity |].
  apply IH; [| exact Hneg].
  assert (k <> i) by (intros ->; lia). lia.
Qed.

(** When every visited cell is non-negative the loop runs to its end. *)
Lemma valid_check_loop_valid s n i :
  (forall k, i <= k < i + Z.of_nat n ->
     0 <= arr_get (init_positions s) k /\ 0 <= arr_get (init_delays s) k) ->
  valid_check_loop s n i = None.
Proof.
  revert i. induction n as [| n IH]; intros i Hall; [reflexivity |].
  simpl. destruct (Hall i ltac:(lia)) as [Hp Hd].
  apply Z.ltb_ge in Hp, Hd. rewrite Hp, Hd.
  apply IH. intros k Hk. apply Hall. lia.
Qed.

Lemma valid_check_rejected c w :
  init_list_rejected (sysfs_actuator w) ->
  sensor_fp5529_valid_check c w = (0, w).
Proof.
  intros [Hs | [i [Hi Hneg]]]; unfold sensor_fp5529_valid_check;
    unfold bind, is_get_sysfs_actuator, mret.
  - apply Z.ltb_ge in Hs. rewrite Hs. reflexivity.
  - assert (Hpos : (0 <? init_step (sysfs_actuator w)) = true)
      by (apply Z.ltb_lt; lia).
    rewrite Hpos.
    rewrite (valid_check_loop_invalid _ _ 0 i); [reflexivity | | exact Hneg].
    rewrite Z2Nat.id by lia. lia.
Qed.

Lemma valid_check_valid c w :
  init_list_valid (sysfs_actuator w) ->
  sensor_fp5529_valid_check c w = (init_step (sysfs_actuator w), w).
Proof.
  intros [Hs Hall]. unfold sensor_fp5529_valid_check.
  unfold bind, is_get_sysfs_actuator, mret.
  apply Z.ltb_lt in Hs. rewrite Hs. apply Z.ltb_lt in Hs.
  rewrite valid_check_loop_valid; [reflexivity |].
  intros k Hk. apply Hall. rewrite Z2Nat.id in Hk by lia. lia.
Qed.

(** C9. When the list is absent, empty or holds a negative position or
    delay, the routine takes the default path: write position 100, sleep
    20 ms, write position 180, sleep 10 ms, cut right after a write the bus
    rejects.  When the routine succeeds the whole sequence was carried out
    and [actuator->position] is 180; when it fails the actuator object is
    untouched. *)
Theorem init_position_fallback c w ret w' :
  adapter c = true ->
  DEF_FP5529_SECOND_POSITION <= FP5529_POS_MAX_SIZE ->
  init_list_rejected (sysfs_actuator w) ->
  sensor_fp5529_init_position c w = (ret, w') ->
  exists r1 r2,
    let plan :=
      [EvWrite16 REG_VCM_MSB 0 100 r1; EvMsleep 20;
       EvWrite16 REG_VCM_MSB 0 180 r2; EvMsleep 10] in
    trace w' = trace w ++ until_failure plan /\
    ret = last_code 0 (until_failure plan) /\
    (0 <= ret ->
       until_failure plan = plan /\ position (actuator w') = 180) /\
    (ret < 0 -> actuator w' = actuator w).
Proof.
  intros Ha Hmax Hrej H.
  unfold sensor_fp5529_init_position in H.
  unfold bind at 1 2 in H. unfold is_get_sysfs_actuator at 1 in H.
  rewrite (valid_check_rejected c w Hrej) in H. simpl in H.
  unfold DEF_FP5529_SECOND_POSITION in Hmax.
  unfold bind at 1 in H.
  rewrite write_position_accepted in H
    by (unfold DEF_FP5529_FIRST_POSITION; trivial; lia).
  unfold ixc_write16 at 1 in H. bus_step H. code_split H.
  { unfold mret in H. injection H as <- <-. exists r, 0. simpl.
    unfold DEF_FP5529_FIRST_POSITION. rewrite L. apply Z.ltb_lt in L.
    repeat split; try reflexivity; lia. }
  unfold bind at 1 2 in H. unfold msleep at 1 in H.
  rewrite write_position_accepted in H
    by (unfold DEF_FP5529_SECOND_POSITION; trivial; lia).
  unfold ixc_write16 at 1 in H. simpl in H. bus_step H. code_split H.
  { unfold mret in H. injection H as <- <-. exists r, r0. simpl.
    unfold DEF_FP5529_FIRST_POSITION, DEF_FP5529_SECOND_POSITION.
    rewrite L, L0. simpl. rewrite !app_cons_assoc. apply Z.ltb_lt in L0.
    repeat split; try reflexivity; lia. }
  run_in H. injection H as <- <-. exists r, r0. simpl.
  unfold DEF_FP5529_FIRST_POSITION, DEF_FP5529_SECOND_POSITION.
  rewrite L, L0. simpl. rewrite !app_cons_assoc. apply Z.ltb_ge in L0.
  repeat split; try reflexivity; lia.
Qed.

(** ** Busy wait *)

Lemma wait_busy_loop_step info count w :
  wait_busy_loop info count w =
  let '(b, info', count', w') := wait_busy_body info count w in
  if b then wait_busy_loop info' count' w' else (info', count', w').
Proof.
  funelim (wait_busy_loop info count w); rewrite e; reflexivity.
Qed.

Lemma status_reads_app l1 l2 :
  status_reads (l1 ++ l2) = (status_reads l1 + status_reads l2)%nat.
Proof. unfold status_reads. rewrite filter_app, length_app. reflexivity. Qed.

(** One turn of the loop, spelled out: the status variable after the turn,
    what was logged, and what the loop test says. *)
Lemma wait_busy_body_spec info count w b info' count' w' :
  wait_busy_body info count w = (b, info', count', w') ->
  count' = count + 1 /\
  b = (info' =? ACTUATOR_STATUS_BUSY) && (count' <? 15) /\
  actuator w' = actuator w /\
  sysfs_actuator w' = sysfs_actuator w /\
  exists evs,
    trace w' = trace w ++ evs ++
      (if info' =? ACTUATOR_STATUS_BUSY then [EvMsleep 10] else []) /\
    ((client (actuator w) = None /\ evs = [] /\ info' = info /\
      hw w' = hw w) \/
     (exists r v d,
        client (actuator w) <> None /\
        addr8_read8 ixc_ops (hw w) REG_STATUS = (r, v, d) /\
        hw w' = d /\
        evs = [EvRead8 REG_STATUS r (to_u8 v)] /\
        info' = if r <? 0 then info
                else if Z.land (to_u8 v) 0x3 =? 0
                     then ACTUATOR_STATUS_NO_BUSY
                     else ACTUATOR_STATUS_BUSY)).
Proof.
  unfold wait_busy_body, sensor_fp5529_actuator_get_status.
  intros H. run_in H.
  destruct (client (actuator w)) as [c |] eqn:Hc.
  - bus_step H.
    assert (Hi : exists i,
               i = (if r <? 0 then info
                    else if Z.land (to_u8 v) 3 =? 0
                         then ACTUATOR_STATUS_NO_BUSY
                         else ACTUATOR_STATUS_BUSY)) by (eexists; reflexivity).
    destruct Hi as [i Hi].
    assert (H' :
      (let (_, w1) :=
         (if i =? ACTUATOR_STATUS_BUSY
          then fun w0 : World => (tt, log (EvMsleep 10) w0)
          else fun w0 : World => (tt, w0))
           (log (EvRead8 REG_STATUS r (to_u8 v)) (set_hw d w)) in
       ((i =? ACTUATOR_STATUS_BUSY) && (count + 1 <? 15), i, count + 1, w1))
      = (b, info', count', w')).
    { rewrite Hi. destruct (r <? 0); exact H. }
    clear H. destruct (i =? ACTUATOR_STATUS_BUSY) eqn:Eb;
      injection H' as <- <- <- <-; rewrite Eb;
      (split; [reflexivity |]); (split; [reflexivity |]);
      (split; [reflexivity |]); (split; [reflexivity |]);
      exists [EvRead8 REG_STATUS r (to_u8 v)]; simpl;
      (split; [rewrite ?app_cons_assoc, ?app_nil_r; reflexivity |]);
      right; exists r, v, d; (split; [discriminate |]);
      (split; [reflexivity |]); auto.
  - destruct (info =? ACTUATOR_STATUS_BUSY) eqn:Eb;
      injection H as <- <- <- <-; rewrite Eb;
      (split; [reflexivity |]); (split; [reflexivity |]);
      (split; [reflexivity |]); (split; [reflexivity |]);
      exists []; simpl;
      (split; [rewrite ?app_nil_r; reflexivity |]); left; auto.
Qed.

(** The whole loop, entered with [count] turns already taken: it leaves
    with [count' <= 15], polls the status register at most once per turn,
    and touches neither the actuator object nor the sysfs knobs.  When
    every poll reads busy it takes every turn up to the bound. *)
Lemma wait_busy_loop_spec n :
  forall info count w info' count' w',
    Z.of_nat n = 14 - count ->
    wait_busy_loop info count w = (info', count', w') ->
    count < count' <= 15 /\
    actuator w' = actuator w /\
    sysfs_actuator w' = sysfs_actuator w /\
    exists evs,
      trace w' = trace w ++ evs /\
      (status_reads evs <= Z.to_nat (count' - count))%nat /\
      (busy_for (S n) (hw w) -> client (actuator w) <> None ->
         count' = 15 /\ info' = ACTUATOR_STATUS_BUSY /\
         status_reads evs = S n).
Proof.
  induction n as [| n IH]; intros info count w info' count' w' Hn H;
    rewrite wait_busy_loop_step in H;
    destruct (wait_busy_body info count w) as [[[b i1] c1] w1] eqn:B;
    apply wait_busy_body_spec in B;
    destruct B as (Hc1 & Hb & Ha1 & Hs1 & evs1 & Ht1 & Hev).
  - (* last turn allowed: count = 14 *)
    assert (Hlt : (c1 <? 15) = false) by (apply Z.ltb_ge; lia).
    rewrite Hlt, andb_false_r in Hb. subst b.
    injection H as <- <- <-.
    split; [lia |]. split; [exact Ha1 |]. split; [exact Hs1 |].
    eexists. split; [exact Ht1 |].
    assert (Hcnt : status_reads
              (evs1 ++ (if i1 =? ACTUATOR_STATUS_BUSY
                        then [EvMsleep 10] else [])) = status_reads evs1)
      by (rewrite status_reads_app; destruct (i1 =? _);
          unfold status_reads; simpl; lia).
    rewrite Hcnt.
    destruct Hev as [(Hnone & -> & _) | (r & v & d & Hsome & Hrd & _ & -> & Hi)].
    + split; [unfold status_reads; simpl; lia |].
        intros _ Hcl. contradiction.
    + split; [replace (c1 - count) with 1 by lia; unfold status_reads; simpl; lia |].
      intros Hbusy _. simpl in Hbusy. rewrite Hrd in Hbusy.
      destruct Hbusy as (Hr & Hv & _).
      apply Z.ltb_ge in Hr. rewrite Hr in Hi.
      apply Z.eqb_neq in Hv. rewrite Hv in Hi.
      split; [lia |]. split; [exact Hi |]. reflexivity.
  - destruct b.
    + (* another turn *)
      apply (IH i1 c1 w1 info' count' w') in H; [| lia].
      destruct H as (Hcc & Ha & Hs & evs & Ht & Hle & Hbusy).
      split; [lia |]. split; [congruence |]. split; [congruence |].
      exists ((evs1 ++ (if i1 =? ACTUATOR_STATUS_BUSY
                        then [EvMsleep 10] else [])) ++ evs).
      split; [rewrite Ht, Ht1, !app_assoc; reflexivity |].
      assert (Hcnt : status_reads
                (evs1 ++ (if i1 =? ACTUATOR_STATUS_BUSY
                          then [EvMsleep 10] else [])) = status_reads evs1)
        by (rewrite status_reads_app; destruct (i1 =? _);
          unfold status_reads; simpl; lia).
      rewrite status_reads_app, Hcnt.
      destruct Hev as [(Hnone & -> & _) | (r & v & d & Hsome & Hrd & Hd & -> & Hi)].
      * split; [change (status_reads []) with 0%nat; lia |].
        intros _ Hcl. contradiction.
      * split; [change (status_reads [EvRead8 REG_STATUS r (to_u8 v)])
                  with 1%nat; lia |].
        intros Hall Hcl. rewrite Ha1, Hd in Hbusy.
        change (busy_for (S (S n)) (hw w)) with
          (let '(r, v, d') := addr8_read8 ixc_ops (hw w) REG_STATUS in
           0 <= r /\ Z.land (to_u8 v) 0x3 <> 0 /\ busy_for (S n) d') in Hall.
        rewrite Hrd in Hall. destruct Hall as (_ & _ & Hall).
        destruct (Hbusy Hall Hcl) as (-> & -> & Hex).
        split; [reflexivity |]. split; [reflexivity |].
        change (status_reads [EvRead8 REG_STATUS r (to_u8 v)]) with 1%nat.
        lia.
    + (* the loop test fails *)
      injection H as <- <- <-.
      split; [lia |]. split; [exact Ha1 |]. split; [exact Hs1 |].
      eexists. split; [exact Ht1 |].
      assert (Hcnt : status_reads
                (evs1 ++ (if i1 =? ACTUATOR_STATUS_BUSY
                          then [EvMsleep 10] else [])) = status_reads evs1)
        by (rewrite status_reads_app; destruct (i1 =? _);
          unfold status_reads; simpl; lia).
      rewrite Hcnt.
      destruct Hev as [(Hnone & -> & _) | (r & v & d & Hsome & Hrd & _ & -> & Hi)].
      * split; [unfold status_reads; simpl; lia |].
        intros _ Hcl. contradiction.
      * split; [change (status_reads [EvRead8 REG_STATUS r (to_u8 v)])
                  with 1%nat; lia |].
        intros Hbusy _.
        change (busy_for (S (S n)) (hw w)) with
          (let '(r, v, d') := addr8_read8 ixc_ops (hw w) REG_STATUS in
           0 <= r /\ Z.land (to_u8 v) 0x3 <> 0 /\ busy_for (S n) d') in Hbusy.
        rewrite Hrd in Hbusy. destruct Hbusy as (Hr & Hv & _).
        apply Z.ltb_ge in Hr. rewrite Hr in Hi.
        apply Z.eqb_neq in Hv. rewrite Hv in Hi.
        subst i1. rewrite Z.eqb_refl in Hb. simpl in Hb.
        symmetry in Hb. apply Z.ltb_ge in Hb. lia.
Qed.

Lemma wait_busy_returns_zero info0 w :
  fst (sensor_fp5529_actuator_wait_busy info0 w) = 0.
Proof.
  unfold sensor_fp5529_actuator_wait_busy, bind, msleep, mret.
  destruct (wait_busy_loop info0 0 (log (EvMsleep 5) w)) as [[? ?] ?].
  reflexivity.
Qed.

(** C6 (as the code has it). The busy-wait always comes back: it sleeps
    5 ms, takes at most 15 turns of the loop with at most one poll of the
    status register each, and returns 0.  When every poll reads busy it
    polls exactly 15 times and leaves the loop with the status variable
    still busy; the value returned is 0 all the same. *)
Theorem wait_busy_bounded info0 w ret w' :
  sensor_fp5529_actuator_wait_busy info0 w = (ret, w') ->
  ret = 0 /\
  exists info' count' evs,
    wait_busy_loop info0 0 (log (EvMsleep 5) w) = (info', count', w') /\
    1 <= count' <= 15 /\
    trace w' = trace w ++ EvMsleep 5 :: evs /\
    (status_reads evs <= 15)%nat /\
    (busy_for 15 (hw w) -> client (actuator w) <> None ->
       count' = 15 /\ status_reads evs = 15%nat /\
       info' = ACTUATOR_STATUS_BUSY).
Proof.
  unfold sensor_fp5529_actuator_wait_busy. intros H. run_in H.
  destruct (wait_busy_loop info0 0 (log (EvMsleep 5) w))
    as [[info' count'] w1] eqn:L.
  injection H as <- <-. split; [reflexivity |].
  apply (wait_busy_loop_spec 14) in L; [| reflexivity].
  destruct L as (Hc & _ & _ & evs & Ht & Hle & Hbusy).
  exists info', count', evs.
  split; [reflexivity |]. split; [lia |].
  split; [rewrite Ht; simpl; apply app_cons_assoc |].
  split; [lia |].
  intros Hall Hcl. destruct (Hbusy Hall Hcl) as (-> & -> & ->).
  repeat split; reflexivity.
Qed.

(** C7 (as the code has it). The busy-wait never returns an error: its
    result is 0 whatever happens.  A turn of the loop whose status read
    fails leaves the status variable as the previous turn left it: when
    that is busy, the turn sleeps its 10 ms and the loop polls again as
    long as fewer than 15 turns were taken. *)
Theorem wait_busy_failed_read info count w c r v d b info' count' w' :
  client (actuator w) = Some c ->
  addr8_read8 ixc_ops (hw w) REG_STATUS = (r, v, d) ->
  r < 0 ->
  wait_busy_body info count w = (b, info', count', w') ->
  (forall info0 w0, fst (sensor_fp5529_actuator_wait_busy info0 w0) = 0) /\
  info' = info /\
  count' = count + 1 /\
  b = (info =? ACTUATOR_STATUS_BUSY) && (count + 1 <? 15) /\
  trace w' =
    trace w ++ EvRead8 REG_STATUS r (to_u8 v) ::
      (if info =? ACTUATOR_STATUS_BUSY then [EvMsleep 10] else []) /\
  wait_busy_loop info count w =
    if b then wait_busy_loop info (count + 1) w' else (info, count + 1, w').
Proof.
  intros Hc Hrd Hr B.
  split; [exact wait_busy_returns_zero |].
  pose proof (wait_busy_loop_step info count w) as S. rewrite B in S.
  apply wait_busy_body_spec in B.
  destruct B as (Hc1 & Hb & _ & _ & evs & Ht & Hev).
  destruct Hev as [(Hnone & _) | (r' & v' & d' & _ & Hrd' & _ & -> & Hi)];
    [congruence |].
  rewrite Hrd in Hrd'. injection Hrd' as <- <- <-.
  apply Z.ltb_lt in Hr. rewrite Hr in Hi. subst info' count'.
  repeat split; try reflexivity; assumption.
Qed.

(** ** Soft landing *)

Lemma keeps_mret A (a : A) : keeps_actuator (mret a).
Proof. intros w. reflexivity. Qed.

Lemma keeps_bind A B (m : M A) (k : A -> M B) :
  keeps_actuator m -> (forall a, keeps_actuator (k a)) ->
  keeps_actuator (bind m k).
Proof.
  intros Hm Hk w. unfold bind. specialize (Hm w).
  destruct (m w) as [a w1]. simpl in Hm. rewrite Hk. exact Hm.
Qed.

Lemma keeps_write8 a v : keeps_actuator (ixc_write8 a v).
Proof.
  intros w. unfold ixc_write8.
  destruct (addr8_write8 ixc_ops (hw w) a v). reflexivity.
Qed.

Lemma keeps_read8 a : keeps_actuator (ixc_read8 a).
Proof.
  intros w. unfold ixc_read8.
  destruct (addr8_read8 ixc_ops (hw w) a) as [[? ?] ?]. reflexivity.
Qed.

Lemma keeps_wait_busy info0 :
  keeps_actuator (sensor_fp5529_actuator_wait_busy info0).
Proof.
  intros w. unfold sensor_fp5529_actuator_wait_busy, bind, msleep, mret.
  destruct (wait_busy_loop info0 0 (log (EvMsleep 5) w))
    as [[i c] w1] eqn:L.
  apply (wait_busy_loop_spec 14) in L; [| reflexivity].
  destruct L as (_ & Ha & _). exact Ha.
Qed.

Ltac keeps :=
  repeat first
    [ apply keeps_mret | apply keeps_write8 | apply keeps_read8
    | apply keeps_wait_busy
    | apply keeps_bind; [| intros ?]
    | match goal with
      | |- keeps_actuator (let (_, _) := ?x in _) => destruct x
      | |- keeps_actuator (if ?b then _ else _) => destruct b
      end ].

Lemma keeps_soft_landing_stages junk :
  keeps_actuator (soft_landing_stages junk).
Proof. unfold soft_landing_stages. keeps. Qed.

Lemma log2_below_16 x : 0 <= x < 65536 -> Z.log2 x < 16.
Proof.
  intros [H0 H1]. destruct (Z.eq_dec x 0) as [-> | Hx]; [reflexivity |].
  apply Z.log2_lt_pow2; lia.
Qed.

(** The ten-bit position assembled from the two bytes read back fits its
    [u16] (and the masked high byte its [u8]). *)
Lemma position_word high low :
  0 <= high < 256 -> 0 <= low < 256 ->
  to_u16 (Z.lor (Z.shiftl (to_u8 (Z.land high 0x03)) 8) low) =
    Z.lor (Z.shiftl (Z.land high 0x03) 8) low /\
  0 <= Z.lor (Z.shiftl (Z.land high 0x03) 8) low.
Proof.
  intros Hh Hl.
  assert (Ha : 0 <= Z.land high 3 < 4).
  { change 3 with (Z.ones 2). rewrite Z.land_ones by lia.
    apply Z.mod_pos_bound. lia. }
  rewrite (to_u8_byte (Z.land high 3)) by lia.
  assert (Hx : 0 <= Z.shiftl (Z.land high 3) 8 < 65536).
  { rewrite Z.shiftl_mul_pow2 by lia. change (2 ^ 8) with 256. lia. }
  assert (Hn : 0 <= Z.lor (Z.shiftl (Z.land high 3) 8) low)
    by (apply Z.lor_nonneg; lia).
  split; [| exact Hn].
  unfold to_u16. change 65536 with (2 ^ 16).
  rewrite <- Z.land_ones by lia. apply Z.land_ones_low; [exact Hn |].
  rewrite Z.log2_lor by lia.
  apply Z.max_lub_lt; apply log2_below_16; lia.
Qed.

(** C1. Once the five stages are through, the two bytes read back from the
    position registers give [position_final = ((high & 0x03) << 8) | low].
    When it is 0 the routine returns the (non-negative) code of the last
    read and the actuator object is as it was on entry; when it is positive
    the routine returns [HW_SOFTLANDING_FAIL] and [actuator->position] is
    [position_final]. *)
Theorem soft_landing_final_position junk w c r5 w5 r1 hi d6 r2 lo d7 :
  client (actuator w) = Some c ->
  soft_landing_stages junk w = (r5, w5) -> 0 <= r5 ->
  addr8_read8 ixc_ops (hw w5) REG_VCM_MSB = (r1, hi, d6) -> 0 <= r1 ->
  addr8_read8 ixc_ops d6 REG_VCM_LSB = (r2, lo, d7) -> 0 <= r2 ->
  let high := to_u8 hi in
  let low := to_u8 lo in
  let position_final := Z.lor (Z.shiftl (Z.land high 0x03) 8) low in
  let ret := fst (sensor_fp5529_actuator_soft_landing junk w) in
  let w' := snd (sensor_fp5529_actuator_soft_landing junk w) in
  0 <= position_final /\
  trace w' = trace w5 ++
    [EvRead8 REG_VCM_MSB r1 high; EvRead8 REG_VCM_LSB r2 low] /\
  (position_final = 0 -> ret = r2 /\ actuator w' = actuator w) /\
  (0 < position_final ->
     ret = HW_SOFTLANDING_FAIL /\
     actuator w' = with_position position_final (actuator w)).
Proof.
  intros Hc Hst H5 Hrd1 H1 Hrd2 H2 high low position_final.
  assert (Hh : 0 <= high < 256) by (apply Z.mod_pos_bound; lia).
  assert (Hl : 0 <= low < 256) by (apply Z.mod_pos_bound; lia).
  destruct (position_word high low Hh Hl) as [Hw Hn].
  fold position_final in Hw, Hn.
  pose proof (keeps_soft_landing_stages junk w) as Hk.
  rewrite Hst in Hk. simpl in Hk.
  apply Z.ltb_ge in H5, H1, H2.
  assert (Hrun :
    sensor_fp5529_actuator_soft_landing junk w =
    let w7 := log (EvRead8 REG_VCM_LSB r2 low)
                (set_hw d7 (log (EvRead8 REG_VCM_MSB r1 high)
                              (set_hw d6 w5))) in
    if 0 <? position_final
    then (HW_SOFTLANDING_FAIL, snd (store_position position_final w7))
    else (r2, w7)).
  { unfold sensor_fp5529_actuator_soft_landing, soft_landing_check.
    unfold bind, get_actuator, ixc_read8, mret, store_position.
    rewrite Hc, Hst, H5, Hrd1, H1. cbn [hw set_hw log].
    rewrite Hrd2, H2. fold high. fold low. rewrite Hw.
    fold position_final.
    destruct (0 <? position_final); reflexivity. }
  rewrite Hrun. clear Hrun. cbv zeta.
  split; [exact Hn |].
  destruct (Z.ltb_spec 0 position_final) as [Hp | Hp]; cbn.
  - split; [rewrite app_cons_assoc; reflexivity |].
    split; [lia |]. intros _. rewrite Hk. split; reflexivity.
  - split; [rewrite app_cons_assoc; reflexivity |].
    split; [| lia]. intros _. rewrite Hk. split; reflexivity.
Qed.

(** ** Walking the caller-supplied list *)

Lemma write_position_success c p w r w1 :
  sensor_fp5529_write_position c p w = (r, w1) -> 0 <= r ->
  trace w1 = trace w ++ [packed_write p r] /\ actuator w1 = actuator w.
Proof.
  unfold sensor_fp5529_write_position. intros H Hr.
  destruct (adapter c); simpl in H.
  2:{ unfold mret, ENODEV in H. injection H as <- _. lia. }
  destruct (FP5529_POS_MAX_SIZE <? p).
  { unfold mret, EINVAL in H. injection H as <- _. lia. }
  unfold ixc_write16 in H. bus_step H. injection H as <- <-.
  split; reflexivity.
Qed.

(** A run of the loop that ends without error took all its [n] turns, each
    logging the packed write of the cell and the sleep of its delay. *)
Lemma init_position_loop_success c s n :
  forall i ret0 w ret i' w',
    init_position_loop c s n i ret0 w = (ret, i', w') -> 0 <= ret ->
    i' = i + Z.of_nat n /\
    actuator w' = actuator w /\
    exists codes,
      length codes = n /\ trace w' = trace w ++ list_plan s i codes.
Proof.
  induction n as [| n IH]; intros i ret0 w ret i' w' H Hr.
  - simpl in H. unfold mret in H. injection H as <- <- <-.
    split; [lia |]. split; [reflexivity |].
    exists []. split; [reflexivity |]. simpl. rewrite app_nil_r. reflexivity.
  - simpl in H. unfold bind at 1 in H.
    destruct (sensor_fp5529_write_position c
                (to_u32 (arr_get (init_positions s) i)) w)
      as [r w1] eqn:Hw.
    destruct (Z.ltb_spec r 0) as [Hneg | Hpos].
    { unfold mret in H. injection H as <- _ _. lia. }
    apply write_position_success in Hw; [| exact Hpos].
    destruct Hw as [Ht1 Ha1].
    unfold bind, msleep in H.
    apply IH in H; [| exact Hr].
    destruct H as (Hi & Ha & codes & Hlen & Ht).
    split; [lia |]. split; [rewrite Ha; exact Ha1 |].
    exists (r :: codes). split; [simpl; congruence |].
    rewrite Ht. simpl. rewrite Ht1. rewrite !app_cons_assoc. reflexivity.
Qed.

(** The list path as a whole.  A successful run over a valid list writes
    the [init_step] listed positions in order with their delays; the
    position it then records is the content of cell [init_step], the cell
    after the last one written (line 254 reads [init_positions[i]] once
    the loop has left [i] at [init_step]).  For a list that fills the
    array that cell lies past its end, where [arr_get] carries no
    meaning. *)
Lemma init_position_list_run c w ret w' :
  let s := sysfs_actuator w in
  init_list_valid s ->
  sensor_fp5529_init_position c w = (ret, w') -> 0 <= ret ->
  exists codes,
    length codes = Z.to_nat (init_step s) /\
    trace w' = trace w ++ list_plan s 0 codes /\
    actuator w' =
      with_position (to_u32 (arr_get (init_positions s) (init_step s)))
        (actuator w).
Proof.
  intros s Hv H Hr. pose proof Hv as [Hstep _].
  unfold sensor_fp5529_init_position in H.
  unfold bind at 1 2 in H. unfold is_get_sysfs_actuator at 1 in H.
  rewrite (valid_check_valid c w Hv) in H. fold s in H.
  apply Z.ltb_lt in Hstep. rewrite Hstep in H. apply Z.ltb_lt in Hstep.
  unfold bind at 1 in H.
  destruct (init_position_loop c s (Z.to_nat (init_step s)) 0 0 w)
    as [[r i] w1] eqn:L.
  destruct (Z.ltb_spec r 0) as [Hneg | Hpos].
  { unfold mret in H. injection H as <- _. lia. }
  apply init_position_loop_success in L; [| exact Hpos].
  destruct L as (Hi & Ha & codes & Hlen & Ht).
  run_in H. injection H as <- <-. simpl.
  exists codes. split; [exact Hlen |]. split; [exact Ht |].
  rewrite Ha, Hi, Z2Nat.id by lia. reflexivity.
Qed.

(** * Further properties *)

(** ** Position bytes *)

(** Checking a property of every integer of [0, n) by running through
    them. *)
Lemma below_forallb (P : Z -> bool) (n : nat) :
  forallb P (map Z.of_nat (seq 0 n)) = true ->
  forall x, 0 <= x < Z.of_nat n -> P x = true.
Proof.
  intros H x Hx. rewrite forallb_forall in H. apply H.
  apply in_map_iff. exists (Z.to_nat x). split; [lia |].
  apply in_seq. lia.
Qed.

Lemma position_bytes val :
  0 <= val < 1024 ->
  let high := to_u8 (Z.shiftr (Z.land val 0x300) 8) in
  let low := to_u8 (Z.land val 0xFF) in
  (0 <= high < 4 /\ 0 <= low < 256) /\
  Z.lor (Z.shiftl (Z.land high 0x03) 8) low = val.
Proof.
  intros Hv.
  pose proof (below_forallb
    (fun v =>
       let high := to_u8 (Z.shiftr (Z.land v 0x300) 8) in
       let low := to_u8 (Z.land v 0xFF) in
       (0 <=? high) && (high <? 4) && (0 <=? low) && (low <? 256) &&
       (Z.lor (Z.shiftl (Z.land high 0x03) 8) low =? v))
    1024 ltac:(vm_compute; reflexivity) val Hv) as H.
  cbv zeta in H.
  repeat (apply andb_prop in H; destruct H as [H ?]).
  cbv zeta. rewrite Z.leb_le in *. rewrite Z.ltb_lt in *.
  rewrite Z.eqb_eq in *. lia.
Qed.

(** An accepted position write puts on the bus two bytes from which the
    read-back formula of the soft landing, [((high & 0x03) << 8) | low],
    recovers the position. *)
Theorem write_position_round_trip c val w ret w' :
  adapter c = true ->
  FP5529_POS_MAX_SIZE <= 1023 ->
  0 <= val <= FP5529_POS_MAX_SIZE ->
  sensor_fp5529_write_position c val w = (ret, w') ->
  exists high low,
    trace w' = trace w ++ [EvWrite16 REG_VCM_MSB high low ret] /\
    0 <= high < 4 /\ 0 <= low < 256 /\
    Z.lor (Z.shiftl (Z.land high 0x03) 8) low = val.
Proof.
  intros Ha Hmax Hv H.
  rewrite write_position_accepted in H by (trivial; lia).
  unfold ixc_write16 in H. bus_step H. injection H as <- <-.
  destruct (position_bytes val ltac:(lia)) as [[Hh Hl] Hrt].
  eexists _, _. split; [reflexivity |]. auto.
Qed.

(** ** Status *)

Lemma busy_bits b :
  0 <= b < 256 ->
  (Z.land b 0x3 =? 0) = negb (Z.testbit b 0 || Z.testbit b 1).
Proof.
  intros Hb.
  pose proof (below_forallb
    (fun v => Bool.eqb (Z.land v 0x3 =? 0)
                (negb (Z.testbit v 0 || Z.testbit v 1)))
    256 ltac:(vm_compute; reflexivity) b Hb) as H.
  apply Bool.eqb_prop in H. exact H.
Qed.

(** The get-status control.  The caller's control keeps its identifier; it
    receives a value only when the status register was read successfully,
    and then the value is the busy code exactly when VBUSY (bit 0) or MBUSY
    (bit 1) of the byte read is set.  Every failure, whatever its cause, is
    reported as [-EINVAL] and leaves the control as it was. *)
Theorem g_ctrl_reports_status ctrl w ret ctrl' w' :
  id ctrl = V4L2_CID_ACTUATOR_GET_STATUS ->
  sensor_fp5529_actuator_g_ctrl ctrl w = (ret, ctrl', w') ->
  id ctrl' = id ctrl /\
  actuator w' = actuator w /\
  (ret < 0 -> ret = - EINVAL /\ ctrl' = ctrl) /\
  (0 <= ret ->
   exists r v d,
     addr8_read8 ixc_ops (hw w) REG_STATUS = (r, v, d) /\
     ret = r /\
     trace w' = trace w ++ [EvRead8 REG_STATUS r (to_u8 v)] /\
     value ctrl' =
       to_s32 (if Z.testbit (to_u8 v) 0 || Z.testbit (to_u8 v) 1
               then ACTUATOR_STATUS_BUSY
               else ACTUATOR_STATUS_NO_BUSY)).
Proof.
  intros Hid H.
  unfold sensor_fp5529_actuator_g_ctrl in H.
  apply Z.eqb_eq in Hid. rewrite Hid in H.
  unfold sensor_fp5529_actuator_get_status in H. run_in H.
  destruct (client (actuator w)) as [c |].
  2:{ injection H as <- <- <-. unfold EINVAL.
      repeat split; try reflexivity; lia. }
  bus_step H. code_split H.
  - rewrite L in H. injection H as <- <- <-. unfold EINVAL.
    repeat split; try reflexivity; lia.
  - rewrite L in H. injection H as <- <- <-. apply Z.ltb_ge in L.
    split; [reflexivity |]. split; [reflexivity |].
    split; [lia |]. intros _. exists r, v, d.
    split; [reflexivity |]. split; [reflexivity |].
    split; [reflexivity |]. cbn [value].
    rewrite busy_bits by (apply Z.mod_pos_bound; lia).
    destruct (Z.testbit (to_u8 v) 0 || Z.testbit (to_u8 v) 1); reflexivity.
Qed.

(** ** Control entry points *)

Lemma g_ctrl_codes ctrl w ret ctrl' w' :
  sensor_fp5529_actuator_g_ctrl ctrl w = (ret, ctrl', w') ->
  id ctrl' = id ctrl /\ (ret = - EINVAL \/ 0 <= ret).
Proof.
  unfold sensor_fp5529_actuator_g_ctrl, sensor_fp5529_actuator_get_status.
  intros H. run_in H.
  destruct (id ctrl =? V4L2_CID_ACTUATOR_GET_STATUS).
  2:{ injection H as <- <- <-. auto. }
  destruct (client (actuator w)).
  2:{ injection H as <- <- <-. auto. }
  bus_step H. code_split H; rewrite L in H; injection H as <- <- <-.
  - auto.
  - apply Z.ltb_ge in L. auto.
Qed.

Lemma s_ctrl_codes junk ctrl w ret w' :
  sensor_fp5529_actuator_s_ctrl junk ctrl w = (ret, w') ->
  ret = 0 \/ ret = - EINVAL \/
  (ret = HW_SOFTLANDING_FAIL /\
   USE_CAMERA_ACT_DRIVER_SOFT_LANDING = true /\
   id ctrl = V4L2_CID_ACTUATOR_SOFT_LANDING).
Proof.
  unfold sensor_fp5529_actuator_s_ctrl. intros H.
  destruct (id ctrl =? V4L2_CID_ACTUATOR_SET_POSITION).
  { unfold bind in H.
    destruct (sensor_fp5529_actuator_set_position _ w) as [r w1].
    destruct (Z.eqb_spec r 0) as [-> | Hr]; simpl in H;
      unfold mret in H; injection H as <- <-; auto. }
  destruct USE_CAMERA_ACT_DRIVER_SOFT_LANDING; simpl in H.
  2:{ unfold mret in H. injection H as <- <-. auto. }
  destruct (Z.eqb_spec (id ctrl) V4L2_CID_ACTUATOR_SOFT_LANDING) as [Hid | Hid].
  2:{ unfold mret in H. injection H as <- <-. auto. }
  unfold bind in H.
  destruct (sensor_fp5529_actuator_soft_landing junk w) as [r w1].
  destruct (Z.eqb_spec r HW_SOFTLANDING_FAIL) as [-> | Hf].
  { unfold mret in H. injection H as <- <-. auto. }
  destruct (Z.eqb_spec r 0) as [-> | Hr]; simpl in H;
    unfold mret in H; injection H as <- <-; auto.
Qed.

(** Whatever the command, the control and the state of the bus, the ioctl
    entry point answers 0, [-EINVAL], [HW_SOFTLANDING_FAIL] (only for the
    soft-landing control, in a build that has it) or, for a get-control
    only, the positive code of a successful status read.  The error codes
    of the bus never reach the caller, and the identifier of the control is
    never changed. *)
Theorem ioctl_result_codes junk cmd ctrl w ret ctrl' w' :
  sensor_fp5529_actuator_ioctl junk cmd ctrl w = (ret, ctrl', w') ->
  id ctrl' = id ctrl /\
  (ret = 0 \/ ret = - EINVAL \/
   (ret = HW_SOFTLANDING_FAIL /\
    USE_CAMERA_ACT_DRIVER_SOFT_LANDING = true /\
    cmd = SENSOR_IOCTL_ACT_S_CTRL /\
    id ctrl = V4L2_CID_ACTUATOR_SOFT_LANDING) \/
   (0 < ret /\ cmd = SENSOR_IOCTL_ACT_G_CTRL)).
Proof.
  unfold sensor_fp5529_actuator_ioctl. intros H.
  destruct (Z.eqb_spec cmd SENSOR_IOCTL_ACT_S_CTRL) as [Hs | Hs].
  { unfold bind, mret in H.
    destruct (sensor_fp5529_actuator_s_ctrl junk ctrl w) as [r w1] eqn:S.
    injection H as <- <- <-. split; [reflexivity |].
    apply s_ctrl_codes in S.
    destruct S as [S | [S | (S & Hu & Hid)]]; auto.
    right. right. left. auto. }
  destruct (Z.eqb_spec cmd SENSOR_IOCTL_ACT_G_CTRL) as [Hg | Hg].
  { apply g_ctrl_codes in H. destruct H as [Hid [Hr | Hr]].
    - auto.
    - split; [exact Hid |].
      destruct (Z.eq_dec ret 0) as [-> | Hnz]; [auto |].
      right. right. right. split; [lia | exact Hg]. }
  unfold mret in H. injection H as <- <- <-. auto.
Qed.

(** A command that is neither of the two ioctl numbers, a set-control whose
    identifier is not one the build handles, and a get-control whose
    identifier is not get-status are all refused with [-EINVAL] before
    anything is done: no bus access, no sleep, no change of state. *)
Theorem ioctl_unknown_rejected junk cmd ctrl w :
  (cmd = SENSOR_IOCTL_ACT_S_CTRL ->
   id ctrl <> V4L2_CID_ACTUATOR_SET_POSITION /\
   (USE_CAMERA_ACT_DRIVER_SOFT_LANDING = true ->
    id ctrl <> V4L2_CID_ACTUATOR_SOFT_LANDING)) ->
  (cmd = SENSOR_IOCTL_ACT_G_CTRL ->
   id ctrl <> V4L2_CID_ACTUATOR_GET_STATUS) ->
  sensor_fp5529_actuator_ioctl junk cmd ctrl w = (- EINVAL, ctrl, w).
Proof.
  intros HS HG. unfold sensor_fp5529_actuator_ioctl.
  destruct (Z.eqb_spec cmd SENSOR_IOCTL_ACT_S_CTRL) as [Hs | Hs].
  { destruct (HS Hs) as [Hp Hl].
    unfold sensor_fp5529_actuator_s_ctrl, bind, mret.
    apply Z.eqb_neq in Hp. rewrite Hp.
    destruct USE_CAMERA_ACT_DRIVER_SOFT_LANDING; simpl; [| reflexivity].
    specialize (Hl eq_refl). apply Z.eqb_neq in Hl. rewrite Hl.
    reflexivity. }
  destruct (Z.eqb_spec cmd SENSOR_IOCTL_ACT_G_CTRL) as [Hg | Hg];
    [| reflexivity].
  unfold sensor_fp5529_actuator_g_ctrl.
  specialize (HG Hg). apply Z.eqb_neq in HG. rewrite HG. reflexivity.
Qed.

(** A set-position control carrying a negative value is refused with
    [-EINVAL] without any bus access: read through the [u32 *] it is a
    position far above the maximum. *)
Theorem ioctl_set_position_negative junk ctrl w :
  id ctrl = V4L2_CID_ACTUATOR_SET_POSITION ->
  FP5529_POS_MAX_SIZE < 2147483648 ->
  - 2147483648 <= value ctrl < 0 ->
  sensor_fp5529_actuator_ioctl junk SENSOR_IOCTL_ACT_S_CTRL ctrl w =
  (- EINVAL, ctrl, w).
Proof.
  intros Hid Hmax Hv. unfold sensor_fp5529_actuator_ioctl.
  rewrite Z.eqb_refl.
  unfold sensor_fp5529_actuator_s_ctrl. apply Z.eqb_eq in Hid. rewrite Hid.
  unfold sensor_fp5529_actuator_set_position.
  unfold bind, is_get_sysfs_actuator, get_actuator, mret.
  assert (Hu : to_u32 (value ctrl) = value ctrl + 4294967296).
  { unfold to_u32. symmetry. apply (Z.mod_unique _ _ (-1)); lia. }
  assert (Hlt : (FP5529_POS_MAX_SIZE <? to_u32 (value ctrl)) = true)
    by (apply Z.ltb_lt; lia).
  rewrite Hlt. destruct (client (actuator w)); reflexivity.
Qed.

Lemma set_position_plain info w ret w' :
  enable_fixed (sysfs_actuator w) = false ->
  sensor_fp5529_actuator_set_position info w = (ret, w') ->
  0 <= ret ->
  info <= FP5529_POS_MAX_SIZE /\
  trace w' = trace w ++ [packed_write info ret] /\
  actuator w' = with_position info (actuator w).
Proof.
  intros Hf H Hr. unfold sensor_fp5529_actuator_set_position in H.
  run_in H. rewrite Hf in H.
  destruct (client (actuator w)) as [c |].
  2:{ injection H as <- _. unfold EINVAL in Hr. lia. }
  destruct (Z.ltb_spec FP5529_POS_MAX_SIZE info) as [Hi | Hi].
  { injection H as <- _. unfold EINVAL in Hr. lia. }
  unfold sensor_fp5529_write_position in H.
  destruct (adapter c); simpl in H.
  2:{ unfold mret in H. simpl in H. injection H as <- _.
      unfold ENODEV in Hr. lia. }
  apply Z.ltb_ge in Hi. rewrite Hi in H. apply Z.ltb_ge in Hi.
  run_in H. bus_step H. code_split H; injection H as <- <-.
  - apply Z.ltb_lt in L. lia.
  - split; [exact Hi |]. split; reflexivity.
Qed.

(** A set-position control that is answered 0 (debug override off) has
    done what it says: the value was an admissible position, the one access
    logged is the successful packed write of that very position, and it is
    now the recorded position. *)
Theorem ioctl_set_position_done junk ctrl w ctrl' w' :
  id ctrl = V4L2_CID_ACTUATOR_SET_POSITION ->
  enable_fixed (sysfs_actuator w) = false ->
  FP5529_POS_MAX_SIZE < 2147483648 ->
  - 2147483648 <= value ctrl < 2147483648 ->
  sensor_fp5529_actuator_ioctl junk SENSOR_IOCTL_ACT_S_CTRL ctrl w =
    (0, ctrl', w') ->
  ctrl' = ctrl /\
  0 <= value ctrl <= FP5529_POS_MAX_SIZE /\
  trace w' = trace w ++ [packed_write (value ctrl) 0] /\
  actuator w' = with_position (value ctrl) (actuator w).
Proof.
  intros Hid Hf Hmax Hv H. unfold sensor_fp5529_actuator_ioctl in H.
  rewrite Z.eqb_refl in H.
  unfold sensor_fp5529_actuator_s_ctrl in H.
  apply Z.eqb_eq in Hid. rewrite Hid in H. unfold bind at 1 2 in H.
  destruct (sensor_fp5529_actuator_set_position (to_u32 (value ctrl)) w)
    as [r w1] eqn:S.
  destruct (Z.eqb_spec r 0) as [-> | Hr]; simpl in H; unfold mret in H.
  2:{ injection H as H _ _. unfold EINVAL in H. lia. }
  injection H as <- <-.
  apply (set_position_plain _ _ _ _ Hf) in S; [| lia].
  destruct S as (Hle & Ht & Ha).
  assert (Hu : to_u32 (value ctrl) = value ctrl).
  { destruct (Z.lt_ge_cases (value ctrl) 0) as [Hneg | Hpos].
    - assert (to_u32 (value ctrl) = value ctrl + 4294967296)
        by (unfold to_u32; symmetry; apply (Z.mod_unique _ _ (-1)); lia).
      lia.
    - unfold to_u32. apply Z.mod_small. lia. }
  rewrite Hu in *.
  split; [reflexivity |].
  assert (0 <= value ctrl).
  { destruct (Z.lt_ge_cases (value ctrl) 0) as [Hneg | Hpos]; [| lia].
    assert (to_u32 (value ctrl) = value ctrl + 4294967296)
      by (unfold to_u32; symmetry; apply (Z.mod_unique _ _ (-1)); lia).
    lia. }
  auto.
Qed.

(** ** Busy wait: what it logs and how long it sleeps *)

Lemma slept_app l1 l2 : slept (l1 ++ l2) = slept l1 + slept l2.
Proof.
  induction l1 as [| e l1 IH]; [reflexivity |].
  destruct e; simpl; rewrite IH; lia.
Qed.

Lemma wait_busy_loop_log n :
  forall info count w info' count' w',
    Z.of_nat n = 14 - count ->
    wait_busy_loop info count w = (info', count', w') ->
    exists evs,
      trace w' = trace w ++ evs /\
      Forall poll_or_sleep evs /\
      0 <= slept evs <= 10 * (count' - count) /\
      count < count' <= 15.
Proof.
  induction n as [| n IH]; intros info count w info' count' w' Hn H;
    rewrite wait_busy_loop_step in H;
    destruct (wait_busy_body info count w) as [[[b i1] c1] w1] eqn:B;
    apply wait_busy_body_spec in B;
    destruct B as (Hc1 & Hb & _ & _ & evs1 & Ht1 & Hev);
    assert (Hone : Forall poll_or_sleep
                     (evs1 ++ (if i1 =? ACTUATOR_STATUS_BUSY
                               then [EvMsleep 10] else [])) /\
                   0 <= slept (evs1 ++ (if i1 =? ACTUATOR_STATUS_BUSY
                                        then [EvMsleep 10] else [])) <= 10)
      by (destruct Hev as [(_ & -> & _) | (r & v & d & _ & _ & _ & -> & _)];
          destruct (i1 =? ACTUATOR_STATUS_BUSY); simpl;
          (split; [repeat constructor | lia]));
    destruct Hone as [Hall Hsl].
  - assert (Hlt : (c1 <? 15) = false) by (apply Z.ltb_ge; lia).
    rewrite Hlt, andb_false_r in Hb. subst b. injection H as <- <- <-.
    eexists. split; [exact Ht1 |]. split; [exact Hall |]. lia.
  - destruct b.
    + symmetry in Hb. apply andb_prop in Hb. destruct Hb as [_ Hb].
      apply Z.ltb_lt in Hb.
      apply (IH i1 c1 w1 info' count' w') in H; [| lia].
      destruct H as (evs & Ht & Hall' & Hsl' & Hcc).
      exists ((evs1 ++ (if i1 =? ACTUATOR_STATUS_BUSY
                        then [EvMsleep 10] else [])) ++ evs).
      split; [rewrite Ht, Ht1, !app_assoc; reflexivity |].
      split; [apply Forall_app; split; assumption |].
      rewrite slept_app. lia.
    + injection H as <- <- <-.
      eexists. split; [exact Ht1 |]. split; [exact Hall |]. lia.
Qed.

(** The busy-wait only ever polls the status register and sleeps: after
    its initial 5 ms it logs nothing but status reads and 10 ms sleeps, so
    it writes nothing to the device, and all its sleeps add up to at most
    155 ms. *)
Theorem wait_busy_budget info0 w ret w' :
  sensor_fp5529_actuator_wait_busy info0 w = (ret, w') ->
  exists evs,
    trace w' = trace w ++ EvMsleep 5 :: evs /\
    Forall poll_or_sleep evs /\
    writes (EvMsleep 5 :: evs) = [] /\
    5 <= slept (EvMsleep 5 :: evs) <= 155.
Proof.
  unfold sensor_fp5529_actuator_wait_busy. intros H. run_in H.
  destruct (wait_busy_loop info0 0 (log (EvMsleep 5) w))
    as [[info' count'] w1] eqn:L.
  injection H as <- <-.
  apply (wait_busy_loop_log 14) in L; [| reflexivity].
  destruct L as (evs & Ht & Hall & Hsl & Hc).
  exists evs. split; [rewrite Ht; simpl; apply app_cons_assoc |].
  split; [exact Hall |]. split.
  - simpl. clear - Hall. induction Hall as [| e l He _ IH]; [reflexivity |].
    unfold writes in *. simpl.
    destruct e; simpl in He; try contradiction; exact IH.
  - change (slept (EvMsleep 5 :: evs)) with (5 + slept evs). lia.
Qed.

Lemma wait_busy_loop_idle k :
  forall n info count w info' count' w',
    ACTUATOR_STATUS_BUSY <> ACTUATOR_STATUS_NO_BUSY ->
    client (actuator w) <> None ->
    Z.of_nat n = 14 - count -> (k <= n)%nat ->
    idle_after k (hw w) ->
    wait_busy_loop info count w = (info', count', w') ->
    info' = ACTUATOR_STATUS_NO_BUSY /\
    count' = count + Z.of_nat k + 1 /\
    exists evs,
      trace w' = trace w ++ evs /\
      status_reads evs = S k /\
      slept evs = 10 * Z.of_nat k.
Proof.
  induction k as [| k IH];
    intros n info count w info' count' w' Hne Hcl Hn Hk Hid H;
    rewrite wait_busy_loop_step in H;
    destruct (wait_busy_body info count w) as [[[b i1] c1] w1] eqn:B;
    apply wait_busy_body_spec in B;
    destruct B as (Hc1 & Hb & Ha1 & _ & evs1 & Ht1 & Hev);
    destruct Hev as [(Hnone & _) | (r & v & d & _ & Hrd & Hd & -> & Hi)];
    try contradiction.
  - simpl in Hid. rewrite Hrd in Hid. destruct Hid as [Hr Hv].
    apply Z.ltb_ge in Hr. rewrite Hr in Hi.
    apply Z.eqb_eq in Hv. rewrite Hv in Hi. subst i1.
    assert (Hnb : (ACTUATOR_STATUS_NO_BUSY =? ACTUATOR_STATUS_BUSY) = false)
      by (apply Z.eqb_neq; congruence).
    rewrite Hnb in Hb, Ht1. simpl in Hb. subst b.
    injection H as <- <- <-.
    split; [reflexivity |]. split; [lia |].
    eexists. split; [exact Ht1 |]. split; reflexivity.
  - change (idle_after (S k) (hw w)) with
      (let '(r, v, d') := addr8_read8 ixc_ops (hw w) REG_STATUS in
       0 <= r /\ Z.land (to_u8 v) 0x3 <> 0 /\ idle_after k d') in Hid.
    rewrite Hrd in Hid. destruct Hid as (Hr & Hv & Hid).
    apply Z.ltb_ge in Hr. rewrite Hr in Hi.
    apply Z.eqb_neq in Hv. rewrite Hv in Hi. subst i1.
    rewrite Z.eqb_refl in Hb, Ht1.
    assert (Hlt : (c1 <? 15) = true) by (apply Z.ltb_lt; lia).
    rewrite Hlt in Hb. simpl in Hb. subst b.
    destruct n as [| n]; [lia |].
    apply (IH n ACTUATOR_STATUS_BUSY c1 w1 info' count' w') in H;
      try assumption; try lia.
    + destruct H as (Hi' & Hc' & evs & Ht & Hs & Hsl).
      split; [exact Hi' |]. split; [lia |].
      exists (([EvRead8 REG_STATUS r (to_u8 v)] ++ [EvMsleep 10]) ++ evs).
      split; [rewrite Ht, Ht1, !app_assoc; reflexivity |].
      split.
      * rewrite status_reads_app, Hs. reflexivity.
      * rewrite slept_app, Hsl.
        change (slept ([EvRead8 REG_STATUS r (to_u8 v)] ++ [EvMsleep 10]))
          with 10.
        lia.
    + rewrite Ha1. exact Hcl.
    + rewrite Hd. exact Hid.
Qed.

(** The busy-wait leaves at the first poll that reads not busy: when the
    status reads busy [k] times (k < 15) and then not busy, the routine
    polls exactly [k + 1] times and has slept 5 + 10 k ms when it returns
    0.  The two status codes are distinct enumerators. *)
Theorem wait_busy_stops_at_first_idle k info0 w ret w' :
  ACTUATOR_STATUS_BUSY <> ACTUATOR_STATUS_NO_BUSY ->
  client (actuator w) <> None ->
  (k < 15)%nat ->
  idle_after k (hw w) ->
  sensor_fp5529_actuator_wait_busy info0 w = (ret, w') ->
  ret = 0 /\
  exists evs,
    trace w' = trace w ++ EvMsleep 5 :: evs /\
    status_reads evs = S k /\
    slept (EvMsleep 5 :: evs) = 5 + 10 * Z.of_nat k.
Proof.
  intros Hne Hcl Hk Hid H.
  unfold sensor_fp5529_actuator_wait_busy in H. run_in H.
  destruct (wait_busy_loop info0 0 (log (EvMsleep 5) w))
    as [[info' count'] w1] eqn:L.
  injection H as <- <-. split; [reflexivity |].
  apply (wait_busy_loop_idle k 14) in L; try assumption;
    try reflexivity; try lia.
  destruct L as (_ & _ & evs & Ht & Hs & Hsl).
  exists evs. split; [rewrite Ht; simpl; apply app_cons_assoc |].
  split; [exact Hs |].
  change (slept (EvMsleep 5 :: evs)) with (5 + slept evs). lia.
Qed.

(** ** Initial position: footprint and failure *)

Lemma logs_mret P A (a : A) : logs P (mret a).
Proof. intros w. exists []. simpl. rewrite app_nil_r. auto. Qed.

Lemma logs_bind P A B (m : M A) (k : A -> M B) :
  logs P m -> (forall a, logs P (k a)) -> logs P (bind m k).
Proof.
  intros Hm Hk w. unfold bind. destruct (Hm w) as (e1 & H1 & F1).
  destruct (m w) as [a w1]. simpl in H1.
  destruct (Hk a w1) as (e2 & H2 & F2).
  exists (e1 ++ e2). rewrite H2, H1, app_assoc. split; [reflexivity |].
  apply Forall_app. auto.
Qed.

Lemma logs_weaken (P Q : event -> Prop) A (m : M A) :
  (forall e, P e -> Q e) -> logs P m -> logs Q m.
Proof.
  intros HPQ Hm w. destruct (Hm w) as (evs & Ht & F).
  exists evs. split; [exact Ht |]. eapply Forall_impl; eauto.
Qed.

Lemma logs_one P A (m : M A) :
  (forall w, exists e, trace (snd (m w)) = trace w ++ [e] /\ P e) ->
  logs P m.
Proof.
  intros H w. destruct (H w) as (e & Ht & He).
  exists [e]. split; [exact Ht | repeat constructor; exact He].
Qed.

Lemma logs_msleep P ms : P (EvMsleep ms) -> logs P (msleep ms).
Proof. intros H. apply logs_one. intros w. exists (EvMsleep ms). auto. Qed.

Lemma logs_usleep_range P lo hi :
  P (EvUsleepRange lo hi) -> logs P (usleep_range lo hi).
Proof.
  intros H. apply logs_one. intros w. exists (EvUsleepRange lo hi). auto.
Qed.

Lemma logs_write8 P a v :
  (forall r, P (EvWrite8 a v r)) -> logs P (ixc_write8 a v).
Proof.
  intros H. apply logs_one. intros w. unfold ixc_write8.
  destruct (addr8_write8 ixc_ops (hw w) a v) as [r d].
  exists (EvWrite8 a v r). auto.
Qed.

Lemma logs_read8 P a :
  (forall r v, P (EvRead8 a r v)) -> logs P (ixc_read8 a).
Proof.
  intros H. apply logs_one. intros w. unfold ixc_read8.
  destruct (addr8_read8 ixc_ops (hw w) a) as [[r v] d].
  exists (EvRead8 a r (to_u8 v)). auto.
Qed.

Lemma logs_write16 P a h l :
  (forall r, P (EvWrite16 a h l r)) -> logs P (ixc_write16 a h l).
Proof.
  intros H. apply logs_one. intros w. unfold ixc_write16.
  destruct (addr_data_write16 ixc_ops (hw w) a h l) as [r d].
  exists (EvWrite16 a h l r). auto.
Qed.

Lemma logs_silent P A (m : M A) :
  (forall w, trace (snd (m w)) = trace w) -> logs P m.
Proof.
  intros H w. exists []. rewrite H, app_nil_r. auto.
Qed.

Lemma logs_write_position c val :
  logs move_or_sleep (sensor_fp5529_write_position c val).
Proof.
  unfold sensor_fp5529_write_position.
  destruct (negb (adapter c)); [apply logs_mret |].
  destruct (FP5529_POS_MAX_SIZE <? val); [apply logs_mret |].
  apply logs_write16. intros r. reflexivity.
Qed.

Lemma keeps_write16 a h l : keeps_actuator (ixc_write16 a h l).
Proof.
  intros w. unfold ixc_write16.
  destruct (addr_data_write16 ixc_ops (hw w) a h l). reflexivity.
Qed.

Lemma keeps_write_position c val :
  keeps_actuator (sensor_fp5529_write_position c val).
Proof.
  unfold sensor_fp5529_write_position.
  destruct (negb (adapter c)); [apply keeps_mret |].
  destruct (FP5529_POS_MAX_SIZE <? val); [apply keeps_mret |].
  apply keeps_write16.
Qed.

Lemma keeps_msleep ms : keeps_actuator (msleep ms).
Proof. intros w. reflexivity. Qed.

Lemma init_position_loop_footprint c s n :
  forall i ret0,
    logs move_or_sleep (init_position_loop c s n i ret0) /\
    keeps_actuator (init_position_loop c s n i ret0).
Proof.
  induction n as [| n IH]; intros i ret0; simpl.
  - split; [apply logs_mret | apply keeps_mret].
  - split.
    + apply logs_bind; [apply logs_write_position |]. intros r.
      destruct (r <? 0); [apply logs_mret |].
      apply logs_bind; [apply logs_msleep; exact I |]. intros _.
      apply IH.
    + apply keeps_bind; [apply keeps_write_position |]. intros r.
      destruct (r <? 0); [apply keeps_mret |].
      apply keeps_bind; [apply keeps_msleep |]. intros _.
      apply IH.
Qed.

Lemma valid_check_silent c w :
  snd (sensor_fp5529_valid_check c w) = w.
Proof.
  unfold sensor_fp5529_valid_check, bind, is_get_sysfs_actuator, mret.
  destruct (0 <? init_step (sysfs_actuator w)); [| reflexivity].
  destruct (valid_check_loop _ _ _); reflexivity.
Qed.

Lemma logs_init_position c :
  logs move_or_sleep (sensor_fp5529_init_position c).
Proof.
  unfold sensor_fp5529_init_position.
  apply logs_bind; [apply logs_silent; reflexivity |]. intros sysfs.
  apply logs_bind;
    [apply logs_silent; intros w0; rewrite valid_check_silent; reflexivity |].
  intros step. destruct (0 <? step).
  - apply logs_bind; [apply init_position_loop_footprint |].
    intros [r i]. destruct (r <? 0); [apply logs_mret |].
    apply logs_bind; [apply logs_silent; reflexivity |]. intros _.
    apply logs_mret.
  - apply logs_bind; [apply logs_write_position |]. intros r.
    destruct (r <? 0); [apply logs_mret |].
    apply logs_bind; [apply logs_msleep; exact I |]. intros _.
    apply logs_bind; [apply logs_write_position |]. intros r'.
    destruct (r' <? 0); [apply logs_mret |].
    apply logs_bind; [apply logs_msleep; exact I |]. intros _.
    apply logs_bind; [apply logs_silent; reflexivity |]. intros _.
    apply logs_mret.
Qed.

Lemma init_position_failure c w ret w' :
  sensor_fp5529_init_position c w = (ret, w') -> ret < 0 ->
  actuator w' = actuator w.
Proof.
  unfold sensor_fp5529_init_position. intros H Hr.
  unfold bind at 1 2 in H. unfold is_get_sysfs_actuator at 1 in H.
  pose proof (valid_check_silent c w) as Hs.
  destruct (sensor_fp5529_valid_check c w) as [step w0]. simpl in Hs.
  subst w0. destruct (0 <? step).
  - unfold bind at 1 in H.
    pose proof (proj2 (init_position_loop_footprint c (sysfs_actuator w)
                         (Z.to_nat step) 0 0) w) as Hk.
    destruct (init_position_loop c (sysfs_actuator w) (Z.to_nat step) 0 0 w)
      as [[r i] w1].
    simpl in Hk. destruct (Z.ltb_spec r 0) as [Hneg | Hpos].
    + unfold mret in H. injection H as _ <-. exact Hk.
    + run_in H. injection H as <- _. lia.
  - unfold bind at 1 in H.
    pose proof (keeps_write_position c DEF_FP5529_FIRST_POSITION w) as K1.
    destruct (sensor_fp5529_write_position c DEF_FP5529_FIRST_POSITION w)
      as [r1 w1]. simpl in K1.
    destruct (Z.ltb_spec r1 0) as [Hn1 | Hp1].
    { unfold mret in H. injection H as _ <-. exact K1. }
    unfold bind at 1 2 in H. unfold msleep at 1 in H.
    pose proof (keeps_write_position c DEF_FP5529_SECOND_POSITION
                  (log (EvMsleep DEF_FP5529_FIRST_DELAY) w1)) as K2.
    destruct (sensor_fp5529_write_position c DEF_FP5529_SECOND_POSITION
                (log (EvMsleep DEF_FP5529_FIRST_DELAY) w1)) as [r2 w2].
    simpl in K2.
    destruct (Z.ltb_spec r2 0) as [Hn2 | Hp2].
    { unfold mret in H. injection H as _ <-. rewrite K2. exact K1. }
    run_in H. injection H as <- _. lia.
Qed.

(** The initial-position routine, whichever path it takes, logs nothing
    but packed position writes and sleeps, never touches the sysfs knobs,
    and when it fails it leaves the actuator object (the recorded position
    included) exactly as it found it. *)
Theorem init_position_footprint c w ret w' :
  sensor_fp5529_init_position c w = (ret, w') ->
  (exists evs, trace w' = trace w ++ evs /\ Forall move_or_sleep evs) /\
  (ret < 0 -> actuator w' = actuator w).
Proof.
  intros H. split.
  - pose proof (logs_init_position c w) as L. rewrite H in L. exact L.
  - apply init_position_failure with (c := c). exact H.
Qed.



Lemma valid_check_loop_cases s n :
  forall i,
    (valid_check_loop s n i = None /\
     forall k, i <= k < i + Z.of_nat n ->
               0 <= arr_get (init_positions s) k /\
               0 <= arr_get (init_delays s) k) \/
    (valid_check_loop s n i = Some 0 /\
     exists k, i <= k < i + Z.of_nat n /\
               (arr_get (init_positions s) k < 0 \/
                arr_get (init_delays s) k < 0)).
Proof.
  induction n as [| n IH]; intros i.
  - left. split; [reflexivity |]. intros k Hk. lia.
  - simpl.
    destruct (Z.ltb_spec (arr_get (init_positions s) i) 0) as [Hp | Hp].
    { right. split; [reflexivity |]. exists i. split; [lia | auto]. }
    destruct (Z.ltb_spec (arr_get (init_delays s) i) 0) as [Hd | Hd].
    { right. split; [reflexivity |]. exists i. split; [lia | auto]. }
    destruct (IH (i + 1)) as [[Hn Hall] | [Hs (k & Hk & Hneg)]].
    + left. split; [exact Hn |]. intros k Hk.
      destruct (Z.eq_dec k i) as [-> | Hki]; [auto |]. apply Hall. lia.
    + right. split; [exact Hs |]. exists k. split; [lia | exact Hneg].
Qed.

(** The validity check has two answers and no effect: it returns the step
    count exactly when the count is positive and the first [init_step]
    positions and delays are all non-negative, and 0 in every other case
    (cells past the count are not looked at). *)
Theorem valid_check_decides c w r w' :
  sensor_fp5529_valid_check c w = (r, w') ->
  w' = w /\
  ((init_list_valid (sysfs_actuator w) /\
    r = init_step (sysfs_actuator w) /\ 0 < r) \/
   (init_list_rejected (sysfs_actuator w) /\ r = 0)).
Proof.
  unfold sensor_fp5529_valid_check, bind, is_get_sysfs_actuator, mret.
  intros H.
  destruct (Z.ltb_spec 0 (init_step (sysfs_actuator w))) as [Hs | Hs].
  - destruct (valid_check_loop_cases (sysfs_actuator w)
                (Z.to_nat (init_step (sysfs_actuator w))) 0)
      as [[Hn Hall] | [Hsome (k & Hk & Hneg)]].
    + rewrite Hn in H. injection H as <- <-. split; [reflexivity |].
      left. split; [| split; [reflexivity | exact Hs]].
      split; [exact Hs |]. intros i Hi. apply Hall.
      rewrite Z2Nat.id by lia. lia.
    + rewrite Hsome in H. injection H as <- <-. split; [reflexivity |].
      right. split; [| reflexivity]. right. exists k.
      rewrite Z2Nat.id in Hk by lia. split; [lia | exact Hneg].
  - injection H as <- <-. split; [reflexivity |].
    right. split; [left; exact Hs | reflexivity].
Qed.

(** ** Calibration fields *)

Lemma acc_mode_low_bits cm ps :
  to_u8 (Z.lor (Z.shiftl cm 5) ps) =
  to_u8 (Z.lor (Z.shiftl (cm mod 8) 5) (ps mod 256)).
Proof.
  unfold to_u8. change 256 with (2 ^ 8). change 8 with (2 ^ 3) at 2.
  rewrite <- !Z.land_ones by lia.
  apply Z.bits_inj'. intros n Hn.
  rewrite !Z.land_spec, !Z.lor_spec, !Z.land_spec.
  rewrite !Z.testbit_ones_nonneg by lia.
  destruct (Z.ltb_spec n 8) as [H8 | H8];
    [| rewrite !andb_false_r; reflexivity].
  rewrite !andb_true_r.
  destruct (Z.ltb_spec n 5) as [H5 | H5].
  - rewrite !Z.shiftl_spec_low by lia. reflexivity.
  - rewrite !Z.shiftl_spec by lia. rewrite !Z.land_spec.
    rewrite !Z.testbit_ones_nonneg by lia.
    assert (Hb : (n - 5 <? 3) = true) by (apply Z.ltb_lt; lia).
    rewrite Hb, !andb_true_r. reflexivity.
Qed.

(** The register programming looks at three bits of [control_mode] and at
    one byte each of [prescale] and [acctime]: two calibration records that
    agree on these make it behave identically, whatever else they hold. *)
Theorem init_calibration_truncated c cal cal' w :
  control_mode cal mod 8 = control_mode cal' mod 8 ->
  prescale cal mod 256 = prescale cal' mod 256 ->
  acctime cal mod 256 = acctime cal' mod 256 ->
  sensor_fp5529_init c (Some cal) w = sensor_fp5529_init c (Some cal') w.
Proof.
  intros Hc Hp Ht. unfold sensor_fp5529_init.
  rewrite !acc_mode_byte, !u8_of_u32.
  rewrite (acc_mode_low_bits (control_mode cal)).
  rewrite (acc_mode_low_bits (control_mode cal')).
  assert (Ht' : to_u8 (acctime cal) = to_u8 (acctime cal'))
    by (unfold to_u8; exact Ht).
  rewrite Hc, Hp, Ht'. reflexivity.
Qed.

(** ** Initialisation as a whole *)

Lemma init_log_shape c cal_data w ret w' :
  sensor_fp5529_init c cal_data w = (ret, w') ->
  exists m t r1 r2 r3 r4 r5,
    let plan :=
      [EvWrite8 REG_CONTROL 0x01 r1;
       EvWrite8 REG_CONTROL 0x00 r2;
       EvUsleepRange PWR_ON_DELAY PWR_ON_DELAY;
       EvWrite8 REG_CONTROL 0x02 r3;
       EvWrite8 REG_ACC_MODE m r4;
       EvWrite8 REG_ACC_TIME t r5] in
    trace w' = trace w ++ until_failure plan /\
    ret = last_code 0 (until_failure plan) /\
    actuator w' = actuator w.
Proof.
  intros H. unfold sensor_fp5529_init in H.
  destruct cal_data as [cal |].
  - exists (to_u8 (Z.lor (Z.shiftl (Z.land (to_u32 (control_mode cal)) 255) 5)
                         (Z.land (to_u32 (prescale cal)) 255))),
           (to_u8 (to_u32 (acctime cal))).
    init_sequence H.
  - exists (to_u8 1), 54. init_sequence H.
Qed.

(** The initialisation entry point.  Without an actuator behind the
    sub-device it returns 0 and does nothing.  Otherwise the lens is moved
    only after all of the register programming went through: a failing
    register write ends the call with that write's code and no position
    write is attempted.  And a call that fails, at whatever point, leaves
    the actuator object as it was. *)
Theorem actuator_init_phases detected cal_data w ret w' :
  sensor_fp5529_actuator_init detected cal_data w = (ret, w') ->
  (detected = false -> ret = 0 /\ w' = w) /\
  (ret < 0 -> actuator w' = actuator w) /\
  (detected = true -> client (actuator w) <> None ->
   exists m t r1 r2 r3 r4 r5 moves,
     let plan :=
       [EvWrite8 REG_CONTROL 0x01 r1;
        EvWrite8 REG_CONTROL 0x00 r2;
        EvUsleepRange PWR_ON_DELAY PWR_ON_DELAY;
        EvWrite8 REG_CONTROL 0x02 r3;
        EvWrite8 REG_ACC_MODE m r4;
        EvWrite8 REG_ACC_TIME t r5] in
     trace w' = trace w ++ until_failure plan ++ moves /\
     Forall move_or_sleep moves /\
     (last_code 0 (until_failure plan) < 0 ->
        moves = [] /\ ret = last_code 0 (until_failure plan))).
Proof.
  unfold sensor_fp5529_actuator_init. intros H.
  destruct detected; simpl in H.
  2:{ unfold mret in H. injection H as <- <-.
      split; [auto |]. split; [lia | discriminate]. }
  unfold bind at 1, get_actuator in H.
  destruct (client (actuator w)) as [c |].
  2:{ unfold mret in H. injection H as <- <-.
      split; [discriminate |]. split; [reflexivity |].
      intros _ Hc. contradiction. }
  unfold bind at 1 in H.
  destruct (sensor_fp5529_init c cal_data w) as [r w1] eqn:I.
  apply init_log_shape in I.
  destruct I as (m & t & r1 & r2 & r3 & r4 & r5 & Ht & Hr & Ha).
  cbv zeta in Ht, Hr.
  split; [discriminate |].
  destruct (Z.ltb_spec r 0) as [Hneg | Hpos].
  - unfold mret in H. injection H as <- <-.
    split; [intros _; exact Ha |]. intros _ _.
    exists m, t, r1, r2, r3, r4, r5, []. cbv zeta.
    rewrite app_nil_r. split; [exact Ht |]. split; [constructor |].
    intros _. split; [reflexivity | exact Hr].
  - unfold bind at 1 in H.
    destruct (sensor_fp5529_init_position c w1) as [r' w2] eqn:P.
    rewrite if_same in H. unfold mret in H. injection H as <- <-.
    split.
    + intros Hr'. rewrite <- Ha.
      apply init_position_failure with (c := c) (ret := r'); assumption.
    + intros _ _. pose proof (logs_init_position c w1) as L.
      rewrite P in L. destruct L as (moves & Hm & Hall). simpl in Hm.
      exists m, t, r1, r2, r3, r4, r5, moves. cbv zeta.
      split; [rewrite Hm, Ht, app_assoc; reflexivity |].
      split; [exact Hall |]. intros Hlt. lia.
Qed.

(** ** Soft landing: recorded position and write order *)



Lemma to_u8_range x : 0 <= to_u8 x <= 255.
Proof.
  unfold to_u8. pose proof (Z.mod_pos_bound x 256 ltac:(lia)). lia.
Qed.

Lemma writes_app l1 l2 : writes (l1 ++ l2) = writes l1 ++ writes l2.
Proof. apply filter_app. Qed.

Lemma poll_or_sleep_no_writes evs :
  Forall poll_or_sleep evs -> writes evs = [].
Proof.
  induction 1 as [| e l He _ IH]; [reflexivity |].
  unfold writes in *. simpl.
  destruct e; simpl in He; try contradiction; exact IH.
Qed.

Lemma wait_busy_writes info0 w :
  writes (trace (snd (sensor_fp5529_actuator_wait_busy info0 w))) =
  writes (trace w).
Proof.
  unfold sensor_fp5529_actuator_wait_busy, bind, msleep, mret.
  destruct (wait_busy_loop info0 0 (log (EvMsleep 5) w))
    as [[i c] w1] eqn:L.
  apply (wait_busy_loop_log 14) in L; [| reflexivity].
  destruct L as (evs & Ht & Hall & _). simpl. rewrite Ht. simpl.
  rewrite !writes_app, (poll_or_sleep_no_writes _ Hall).
  simpl. rewrite !app_nil_r. reflexivity.
Qed.

Lemma read8_writes a w :
  writes (trace (snd (ixc_read8 a w))) = writes (trace w).
Proof.
  unfold ixc_read8. destruct (addr8_read8 ixc_ops (hw w) a) as [[r v] d].
  simpl. rewrite writes_app. simpl. apply app_nil_r.
Qed.

Lemma write8_writes a v w :
  writes (trace (snd (ixc_write8 a v w))) =
  writes (trace w) ++ [EvWrite8 a v (fst (ixc_write8 a v w))].
Proof.
  unfold ixc_write8. destruct (addr8_write8 ixc_ops (hw w) a v) as [r d].
  simpl. rewrite writes_app. reflexivity.
Qed.

(** Stepping through a chain of actions while keeping track of the writes
    logged so far. *)
Ltac next_wait H w1 Hw :=
  unfold bind at 1 in H;
  match type of H with
  | context [sensor_fp5529_actuator_wait_busy ?j ?w0] =>
      pose proof (wait_busy_writes j w0) as Hw;
      destruct (sensor_fp5529_actuator_wait_busy j w0) as [? w1];
      simpl in Hw
  end.

Ltac next_read H r v w1 Hw :=
  unfold bind at 1 in H;
  match type of H with
  | context [ixc_read8 ?a ?w0] =>
      pose proof (read8_writes a w0) as Hw;
      destruct (ixc_read8 a w0) as [[r v] w1];
      simpl in Hw
  end.

Ltac next_write H r w1 Hw :=
  unfold bind at 1 in H;
  match type of H with
  | context [ixc_write8 ?a ?v ?w0] =>
      pose proof (write8_writes a v w0) as Hw;
      destruct (ixc_write8 a v w0) as [r w1];
      simpl in Hw
  end.

Ltac stop_here H :=
  unfold mret in H; injection H as <- <-.

Lemma soft_landing_stages_writes junk w ret w' :
  soft_landing_stages junk w = (ret, w') ->
  exists v r1 r2 r3 r4,
    let plan :=
      [EvWrite8 REG_PRESET v r1;
       EvWrite8 REG_CONTROL 0x02 r2;
       EvWrite8 REG_ACC_MODE 0xA1 r3;
       EvWrite8 REG_LAD_EN 0x01 r4] in
    0 <= v <= 255 /\
    ((writes (trace w') = writes (trace w) /\ ret < 0) \/
     (writes (trace w') = writes (trace w) ++ until_failure plan /\
      ret = last_code 0 (until_failure plan))).
Proof.
  unfold soft_landing_stages. intros H.
  next_wait H wa Ha. next_read H ra pos1 wb Hb.
  destruct (Z.ltb_spec ra 0) as [Hna | Hpa].
  { stop_here H.
    exists 0, 0, 0, 0, 0. cbv zeta. split; [lia |]. left.
    split; [congruence | exact Hna]. }
  next_read H rb pos2 wc Hc.
  destruct (Z.ltb_spec rb 0) as [Hnb | Hpb].
  { stop_here H.
    exists 0, 0, 0, 0, 0. cbv zeta. split; [lia |]. left.
    split; [congruence | exact Hnb]. }
  cbv zeta in H.
  match type of H with
  | context [ixc_write8 REG_PRESET ?v0] => set (v := v0) in *
  end.
  assert (Hv : 0 <= v <= 255).
  { subst v. apply to_u8_range. }
  next_write H r1 wd Hd.
  destruct (Z.ltb_spec r1 0) as [Hn1 | Hp1].
  { stop_here H.
    exists v, r1, 0, 0, 0. cbv zeta. split; [exact Hv |]. right.
    apply Z.ltb_lt in Hn1. simpl. rewrite Hn1.
    split; [congruence | reflexivity]. }
  apply Z.ltb_ge in Hp1.
  next_wait H we He. next_write H r2 wf Hf.
  destruct (Z.ltb_spec r2 0) as [Hn2 | Hp2].
  { stop_here H.
    exists v, r1, r2, 0, 0. cbv zeta. split; [exact Hv |]. right.
    apply Z.ltb_lt in Hn2. simpl. rewrite Hp1, Hn2. simpl.
    split; [| reflexivity].
    rewrite Hf, He, Hd, Hc, Hb, Ha, <- !app_assoc. reflexivity. }
  apply Z.ltb_ge in Hp2.
  next_wait H wg Hg. next_write H r3 wh Hh.
  destruct (Z.ltb_spec r3 0) as [Hn3 | Hp3].
  { stop_here H.
    exists v, r1, r2, r3, 0. cbv zeta. split; [exact Hv |]. right.
    apply Z.ltb_lt in Hn3. simpl. rewrite Hp1, Hp2, Hn3. simpl.
    split; [| reflexivity].
    rewrite Hh, Hg, Hf, He, Hd, Hc, Hb, Ha, <- !app_assoc. reflexivity. }
  apply Z.ltb_ge in Hp3.
  next_wait H wi Hi. next_write H r4 wj Hj.
  destruct (Z.ltb_spec r4 0) as [Hn4 | Hp4].
  { stop_here H.
    exists v, r1, r2, r3, r4. cbv zeta. split; [exact Hv |]. right.
    apply Z.ltb_lt in Hn4. simpl. rewrite Hp1, Hp2, Hp3, Hn4. simpl.
    split; [| reflexivity].
    rewrite Hj, Hi, Hh, Hg, Hf, He, Hd, Hc, Hb, Ha, <- !app_assoc.
    reflexivity. }
  apply Z.ltb_ge in Hp4.
  next_wait H wk Hk. stop_here H.
  exists v, r1, r2, r3, r4. cbv zeta. split; [exact Hv |]. right.
  simpl. rewrite Hp1, Hp2, Hp3, Hp4. simpl.
  split; [| reflexivity].
  rewrite Hk, Hj, Hi, Hh, Hg, Hf, He, Hd, Hc, Hb, Ha, <- !app_assoc.
  reflexivity.
Qed.

Lemma soft_landing_check_writes w ret w' :
  soft_landing_check w = (ret, w') ->
  writes (trace w') = writes (trace w).
Proof.
  unfold soft_landing_check. intros H.
  next_read H ra pos1 wa Ha.
  destruct (ra <? 0); [stop_here H; exact Ha |].
  next_read H rb pos2 wb Hb.
  destruct (rb <? 0); [stop_here H; congruence |].
  cbv zeta in H.
  destruct (0 <? _) in H.
  - unfold bind, store_position, mret in H. injection H as <- <-.
    cbn [trace]. congruence.
  - stop_here H. congruence.
Qed.

(** The only writes of a soft landing are, in this order, the landing
    preset, ring mode (control register 0x02), the landing acceleration
    profile 0xA1 and the landing enable; it never writes a position.
    Either all four go through, or the call returns the negative code of
    the write that failed, which is the last one it issued; when it writes
    nothing at all it has failed before the first write. *)
Theorem soft_landing_write_order junk w ret w' :
  sensor_fp5529_actuator_soft_landing junk w = (ret, w') ->
  exists v r1 r2 r3 r4,
    let plan :=
      [EvWrite8 REG_PRESET v r1;
       EvWrite8 REG_CONTROL 0x02 r2;
       EvWrite8 REG_ACC_MODE 0xA1 r3;
       EvWrite8 REG_LAD_EN 0x01 r4] in
    0 <= v <= 255 /\
    ((writes (trace w') = writes (trace w) /\ ret < 0) \/
     (writes (trace w') = writes (trace w) ++ until_failure plan /\
      ((0 <= r1 /\ 0 <= r2 /\ 0 <= r3 /\ 0 <= r4) \/
       (ret < 0 /\ ret = last_code 0 (until_failure plan))))).
Proof.
  unfold sensor_fp5529_actuator_soft_landing. intros H.
  unfold bind at 1, get_actuator in H.
  destruct (client (actuator w)) as [c |].
  2:{ stop_here H. exists 0, 0, 0, 0, 0. cbv zeta. split; [lia |].
      left. unfold EINVAL. split; [reflexivity | lia]. }
  unfold bind at 1 in H.
  destruct (soft_landing_stages junk w) as [r5 w5] eqn:S.
  apply soft_landing_stages_writes in S.
  destruct S as (v & r1 & r2 & r3 & r4 & Hv & S). cbv zeta in S.
  exists v, r1, r2, r3, r4. cbv zeta. split; [exact Hv |].
  destruct (Z.ltb_spec r5 0) as [Hn | Hp].
  - stop_here H. destruct S as [[Hw Hr] | [Hw Hr]]; [left; auto |].
    right. split; [exact Hw |]. right. split; [exact Hn | exact Hr].
  - pose proof (soft_landing_check_writes w5 _ _ H) as C.
    destruct S as [[Hw Hr] | [Hw Hr]]; [lia |].
    right. split; [congruence |]. left.
    simpl in Hr.
    destruct (Z.ltb_spec r1 0); simpl in Hr; [lia |].
    destruct (Z.ltb_spec r2 0); simpl in Hr; [lia |].
    destruct (Z.ltb_spec r3 0); simpl in Hr; [lia |].
    destruct (Z.ltb_spec r4 0); simpl in Hr; lia.
Qed.

Lemma preset_value hi lo :
  0 <= hi < 256 -> 0 <= lo < 256 ->
  to_u8 (if Z.land (to_u8 (Z.land hi 0x03)) 0x02 =? 0
         then Z.shiftr
                (to_u16 (Z.lor (Z.shiftl (to_u8 (Z.land hi 0x03)) 8) lo)) 1
         else 0xff) =
  (if (hi mod 4) * 256 + lo <? 512
   then ((hi mod 4) * 256 + lo) / 2 else 255).
Proof.
  intros Hh Hl.
  pose proof (below_forallb
    (fun h => forallb
       (fun l =>
          to_u8 (if Z.land (to_u8 (Z.land h 0x03)) 0x02 =? 0
                 then Z.shiftr
                        (to_u16 (Z.lor (Z.shiftl (to_u8 (Z.land h 0x03)) 8)
                                       l)) 1
                 else 0xff) =?
          (if (h mod 4) * 256 + l <? 512
           then ((h mod 4) * 256 + l) / 2 else 255))
       (map Z.of_nat (seq 0 256)))
    256 ltac:(vm_compute; reflexivity) hi Hh) as H.
  apply (below_forallb _ 256 H lo) in Hl. apply Z.eqb_eq in Hl. exact Hl.
Qed.

Lemma logs_wait_busy_any info0 :
  logs (fun _ => True) (sensor_fp5529_actuator_wait_busy info0).
Proof.
  intros w. unfold sensor_fp5529_actuator_wait_busy, bind, msleep, mret.
  destruct (wait_busy_loop info0 0 (log (EvMsleep 5) w))
    as [[i c] w1] eqn:L.
  apply (wait_busy_loop_log 14) in L; [| reflexivity].
  destruct L as (evs & Ht & _). simpl. rewrite Ht. simpl.
  exists (EvMsleep 5 :: evs). split; [apply app_cons_assoc |].
  apply Forall_forall. auto.
Qed.

Ltac logs_any :=
  repeat first
    [ apply logs_mret
    | apply logs_wait_busy_any
    | apply logs_write8; intros; exact I
    | apply logs_read8; intros; exact I
    | apply logs_bind; [| intros ?]
    | match goal with
      | |- logs _ (let (_, _) := ?x in _) => destruct x
      | |- logs _ (if ?b then _ else _) => destruct b
      end ].

(** The landing preset.  Once the two position bytes are read, the value
    written to the preset register right after them is half the position
    they encode when that position is below 512, and 0xFF from 512 on. *)
Theorem soft_landing_preset_value junk w ret w' ra hi da rb lo db :
  let w1 := snd (sensor_fp5529_actuator_wait_busy (junk 0%nat) w) in
  addr8_read8 ixc_ops (hw w1) REG_VCM_MSB = (ra, hi, da) -> 0 <= ra ->
  addr8_read8 ixc_ops da REG_VCM_LSB = (rb, lo, db) -> 0 <= rb ->
  soft_landing_stages junk w = (ret, w') ->
  let position0 := (to_u8 hi mod 4) * 256 + to_u8 lo in
  exists r post,
    trace w' = trace w1 ++
      [EvRead8 REG_VCM_MSB ra (to_u8 hi);
       EvRead8 REG_VCM_LSB rb (to_u8 lo);
       EvWrite8 REG_PRESET
         (if position0 <? 512 then position0 / 2 else 255) r] ++ post.
Proof.
  intros w1 Ha Hra Hb Hrb H position0.
  unfold soft_landing_stages in H. unfold bind at 1 in H.
  subst w1.
  destruct (sensor_fp5529_actuator_wait_busy (junk 0%nat) w) as [x w1].
  simpl in Ha. simpl.
  unfold bind at 1, ixc_read8 at 1 in H. rewrite Ha in H.
  apply Z.ltb_ge in Hra, Hrb. rewrite Hra in H.
  unfold bind at 1, ixc_read8 at 1 in H. cbn [hw set_hw log] in H.
  rewrite Hb in H. rewrite Hrb in H. cbv zeta in H.
  rewrite preset_value in H
    by (split; apply Z.mod_pos_bound; lia).
  fold position0 in H.
  unfold bind at 1, ixc_write8 at 1 in H. cbn [hw set_hw log] in H.
  destruct (addr8_write8 ixc_ops db REG_PRESET
              (if position0 <? 512 then position0 / 2 else 255))
    as [r d] eqn:E.
  match type of H with
  | ?m ?w0 = _ =>
      assert (L : logs (fun _ => True) m) by logs_any;
      destruct (L w0) as (post & Hp & _)
  end.
  rewrite H in Hp. simpl in Hp.
  exists r, post. rewrite Hp. rewrite <- !app_assoc. reflexivity.
Qed.

End Driver.

(** * Concrete runs on the scripted bus *)

(** C3 at target 2000 with maximum 1023: refused, world untouched. *)
Lemma write_position_out_of_range_witness :
  sensor_fp5529_write_position Mock.ops Mock.POS_MAX Mock.the_client 2000
    Mock.w_idle = (- EINVAL, Mock.w_idle).
Proof.
  apply (write_position_out_of_range Mock.dev Mock.ops Mock.POS_MAX
           Mock.the_client 2000 Mock.w_idle); reflexivity.
Defined.

(** C4 on a bus where every write succeeds. *)
Lemma init_default_sequence_witness :
  exists r1 r2 r3 r4 r5,
    let plan :=
      [EvWrite8 REG_CONTROL 0x01 r1;
       EvWrite8 REG_CONTROL 0x00 r2;
       EvUsleepRange 5000 5000;
       EvWrite8 REG_CONTROL 0x02 r3;
       EvWrite8 REG_ACC_MODE 0x01 r4;
       EvWrite8 REG_ACC_TIME 0x36 r5] in
    let run :=
      sensor_fp5529_init Mock.ops Mock.PWR_ON Mock.the_client None
        Mock.w_idle in
    trace (snd run) = trace Mock.w_idle ++ until_failure plan /\
    fst run = last_code 0 (until_failure plan) /\
    actuator (snd run) = actuator Mock.w_idle.
Proof.
  apply (init_default_sequence Mock.dev Mock.ops Mock.PWR_ON Mock.the_client
           Mock.w_idle).
  reflexivity.
Defined.

(** The same run, evaluated. *)
Example init_default_trace :
  sensor_fp5529_init Mock.ops Mock.PWR_ON Mock.the_client None Mock.w_idle =
  (0, {| hw := Mock.always (0, 0);
         trace := [EvWrite8 0x02 0x01 0; EvWrite8 0x02 0x00 0;
                   EvUsleepRange 5000 5000; EvWrite8 0x02 0x02 0;
                   EvWrite8 0x06 0x01 0; EvWrite8 0x07 0x36 0];
         actuator := actuator Mock.w_idle;
         sysfs_actuator := Mock.no_sysfs |}).
Proof. vm_compute. reflexivity. Qed.

(** A bus that rejects the third access: the sequence stops there. *)
Example init_default_aborts :
  let w := Mock.boot {| Mock.script := [(0, 0); (0, 0)];
                        Mock.idle := (-5, 0) |} Mock.no_sysfs in
  let run := sensor_fp5529_init Mock.ops Mock.PWR_ON Mock.the_client None w in
  fst run = -5 /\
  trace (snd run) = [EvWrite8 0x02 0x01 0; EvWrite8 0x02 0x00 0;
                     EvUsleepRange 5000 5000; EvWrite8 0x02 0x02 (-5)].
Proof. vm_compute. split; reflexivity. Qed.

(** C5 at control_mode = 0x2, prescale = 0x3, acc_time = 0x10. *)
Lemma init_calibrated_sequence_witness :
  exists r1 r2 r3 r4 r5,
    let plan :=
      [EvWrite8 REG_CONTROL 0x01 r1;
       EvWrite8 REG_CONTROL 0x00 r2;
       EvUsleepRange 5000 5000;
       EvWrite8 REG_CONTROL 0x02 r3;
       EvWrite8 REG_ACC_MODE 0x43 r4;
       EvWrite8 REG_ACC_TIME 0x10 r5] in
    let run :=
      sensor_fp5529_init Mock.ops Mock.PWR_ON Mock.the_client
        (Some Mock.cal_2_3_16) Mock.w_idle in
    trace (snd run) = trace Mock.w_idle ++ until_failure plan /\
    fst run = last_code 0 (until_failure plan) /\
    actuator (snd run) = actuator Mock.w_idle.
Proof.
  apply (init_calibrated_sequence Mock.dev Mock.ops Mock.PWR_ON Mock.the_client
           Mock.cal_2_3_16 Mock.w_idle).
  - simpl. lia.
  - reflexivity.
Defined.

Example init_calibrated_trace :
  trace (snd (sensor_fp5529_init Mock.ops Mock.PWR_ON Mock.the_client
                (Some Mock.cal_2_3_16) Mock.w_idle)) =
  [EvWrite8 0x02 0x01 0; EvWrite8 0x02 0x00 0; EvUsleepRange 5000 5000;
   EvWrite8 0x02 0x02 0; EvWrite8 0x06 0x43 0; EvWrite8 0x07 0x10 0].
Proof. vm_compute. reflexivity. Qed.

(** C1 at the read-back (0x02, 0x10): the landing is reported as failed and
    the position recorded is 0x210. *)
Lemma soft_landing_final_position_witness :
  let run :=
    sensor_fp5529_actuator_soft_landing Mock.ops Mock.NO_BUSY Mock.BUSY
      Mock.LANDING_FAIL (fun _ => 0) (Mock.w_landing 0x02 0x10) in
  fst run = Mock.LANDING_FAIL /\
  actuator (snd run) =
    with_position 0x210 (actuator (Mock.w_landing 0x02 0x10)).
Proof.
  set (w := Mock.w_landing 0x02 0x10).
  set (w5 := snd (soft_landing_stages Mock.ops Mock.NO_BUSY Mock.BUSY
                    (fun _ => 0) w)).
  set (d6 := {| Mock.script := [(0, 0x10)]; Mock.idle := (0, 0) |}).
  assert (Hst : soft_landing_stages Mock.ops Mock.NO_BUSY Mock.BUSY
                  (fun _ => 0) w = (0, w5))
    by (vm_compute; reflexivity).
  assert (Hrd1 : addr8_read8 Mock.ops (hw w5) REG_VCM_MSB = (0, 0x02, d6))
    by (vm_compute; reflexivity).
  assert (Hrd2 : addr8_read8 Mock.ops d6 REG_VCM_LSB
                 = (0, 0x10, Mock.always (0, 0)))
    by (vm_compute; reflexivity).
  assert (Hc : client (actuator w) = Some Mock.the_client) by reflexivity.
  assert (H0 : 0 <= 0) by lia.
  pose proof
    (soft_landing_final_position Mock.dev Mock.ops Mock.NO_BUSY Mock.BUSY
       Mock.LANDING_FAIL (fun _ => 0) w Mock.the_client
       0 w5 0 0x02 d6 0 0x10 (Mock.always (0, 0))
       Hc Hst H0 Hrd1 H0 Hrd2 H0) as H.
  cbv zeta in H. destruct H as (_ & _ & _ & H).
  apply H. reflexivity.
Defined.

(** The two read-backs of the specification's test, evaluated. *)
Example soft_landing_success :
  let run :=
    sensor_fp5529_actuator_soft_landing Mock.ops Mock.NO_BUSY Mock.BUSY
      Mock.LANDING_FAIL (fun _ => 0) (Mock.w_landing 0 0) in
  fst run = 0 /\ position (actuator (snd run)) = 0.
Proof. vm_compute. split; reflexivity. Qed.

Example soft_landing_failure :
  let run :=
    sensor_fp5529_actuator_soft_landing Mock.ops Mock.NO_BUSY Mock.BUSY
      Mock.LANDING_FAIL (fun _ => 0) (Mock.w_landing 0x02 0x10) in
  fst run = Mock.LANDING_FAIL /\ position (actuator (snd run)) = 0x210.
Proof. vm_compute. split; reflexivity. Qed.

(** C2 on the two-step list (100, 10 ms), (200, 20 ms), the lens last
    commanded to 512.  Both positions are written in order with their
    delays, but the position recorded afterwards is that of cell 2, the
    cell after the list, not the 200 written last. *)
Theorem init_position_records_cell_after_list :
  let run :=
    sensor_fp5529_init_position Mock.ops Mock.POS_MAX Mock.the_client
      (Mock.w_at_512 Mock.sysfs_two_steps) in
  fst run = 0 /\
  trace (snd run) =
    [EvWrite16 REG_VCM_MSB 0 100 0; EvMsleep 10;
     EvWrite16 REG_VCM_MSB 0 200 0; EvMsleep 20] /\
  position (actuator (snd run)) = 0 /\
  position (actuator (snd run)) <> 200.
Proof. vm_compute. repeat split; try reflexivity. discriminate. Qed.

(** C6 on a bus whose status always reads busy: fifteen polls, result 0. *)
Lemma wait_busy_bounded_witness :
  let run :=
    sensor_fp5529_actuator_wait_busy Mock.ops Mock.NO_BUSY Mock.BUSY 0
      Mock.w_busy in
  fst run = 0 /\
  exists evs,
    trace (snd run) = trace Mock.w_busy ++ EvMsleep 5 :: evs /\
    status_reads evs = 15%nat.
Proof.
  intros run.
  assert (Hrun : sensor_fp5529_actuator_wait_busy Mock.ops Mock.NO_BUSY
                   Mock.BUSY 0 Mock.w_busy = (fst run, snd run))
    by (vm_compute; reflexivity).
  destruct (wait_busy_bounded Mock.dev Mock.ops Mock.NO_BUSY Mock.BUSY 0
              Mock.w_busy (fst run) (snd run) Hrun)
    as (Hr & info' & count' & evs & _ & _ & Ht & _ & Hbusy).
  destruct Hbusy as (_ & Hs & _).
  - vm_compute. repeat split; discriminate.
  - discriminate.
  - split; [exact Hr |]. exists evs. split; [exact Ht | exact Hs].
Defined.

(** The bus of [Mock.w_busy] does read busy at each of the fifteen polls. *)
Example w_busy_is_busy : busy_for Mock.ops 15 (hw Mock.w_busy).
Proof. vm_compute. repeat split; discriminate. Qed.

(** C6, counterexample to the statement that the status is returned.  On
    the always-busy bus the status variable is
    busy when the loop is left and the value returned is 0, not the busy
    code; and whatever two distinct codes stand for not-busy and busy, the
    value returned cannot be the status last observed both on the
    always-busy bus and on the idle one, for it is the same in both runs. *)
Lemma wait_busy_returns_status_counterexample :
  (fst (fst (wait_busy_loop Mock.ops Mock.NO_BUSY Mock.BUSY 0 0
               (log (EvMsleep 5) Mock.w_busy))) = Mock.BUSY /\
   fst (sensor_fp5529_actuator_wait_busy Mock.ops Mock.NO_BUSY Mock.BUSY 0
          Mock.w_busy) <> Mock.BUSY) /\
  ~ (exists no_busy busy,
       no_busy <> busy /\
       fst (sensor_fp5529_actuator_wait_busy Mock.ops no_busy busy 0
              Mock.w_busy) = busy /\
       fst (sensor_fp5529_actuator_wait_busy Mock.ops no_busy busy 0
              Mock.w_idle) = no_busy).
Proof.
  split.
  - split; vm_compute; [reflexivity | discriminate].
  - intros (no_busy & busy & Hne & Hb & Hi).
    rewrite wait_busy_returns_zero in Hb, Hi. congruence.
Qed.

(** C7 at a turn of the loop entered with the status variable busy, on a
    bus whose reads fail. *)
Lemma wait_busy_failed_read_witness :
  let w := Mock.boot (Mock.always (-5, 0)) Mock.no_sysfs in
  let turn := wait_busy_body Mock.ops Mock.NO_BUSY Mock.BUSY Mock.BUSY 1 w in
  snd (fst (fst turn)) = Mock.BUSY /\
  fst (fst (fst turn)) = true /\
  trace (snd turn) = [EvRead8 REG_STATUS (-5) 0; EvMsleep 10].
Proof.
  intros w turn.
  destruct
    (wait_busy_failed_read Mock.dev Mock.ops Mock.NO_BUSY Mock.BUSY
       Mock.BUSY 1 w Mock.the_client (-5) 0 (Mock.always (-5, 0))
       (fst (fst (fst turn))) (snd (fst (fst turn))) (snd (fst turn))
       (snd turn))
    as (_ & Hi & _ & Hb & Ht & _).
  - reflexivity.
  - reflexivity.
  - reflexivity.
  - reflexivity.
  - split; [exact Hi |]. split; [exact Hb | exact Ht].
Defined.

(** C7, counterexample to the statement that a failed read counts as not
    busy.  The first poll reads busy and every later read
    fails: instead of leaving the loop at the first failed read, the
    routine sleeps 10 ms after each of them and polls again, fifteen polls
    in all. *)
Lemma wait_busy_failed_read_counterexample :
  trace (snd (sensor_fp5529_actuator_wait_busy Mock.ops Mock.NO_BUSY
                Mock.BUSY 0 Mock.w_busy_then_dead)) =
  EvMsleep 5 :: EvRead8 REG_STATUS 0 1 :: EvMsleep 10 ::
  concat (repeat [EvRead8 REG_STATUS (-5) 0; EvMsleep 10] 14).
Proof. vm_compute. reflexivity. Qed.

(** C8 (as the code has it) at target 2000 with the override at 100. *)
Lemma set_position_fixed_override_witness :
  let w := Mock.boot (Mock.always (0, 0)) Mock.sysfs_fixed_100 in
  let run :=
    sensor_fp5529_actuator_set_position Mock.ops Mock.POS_MAX 2000 w in
  fst run = - EINVAL /\ snd run = w.
Proof.
  intros w run.
  pose proof
    (set_position_fixed_override Mock.dev Mock.ops Mock.POS_MAX 2000 w
       Mock.the_client (fst run) (snd run)
       eq_refl eq_refl eq_refl eq_refl) as H.
  cbv zeta in H. destruct H as (H & _). apply H. reflexivity.
Defined.

(** C8, counterexample to the statement that the override is substituted
    before the range check.  The override is 100, well inside the range; a
    call with target 2000 is nevertheless refused with no write, while a
    call with target 0 writes the override: the range check looked at the
    caller's target, not at the override. *)
Lemma set_position_override_counterexample :
  let w := Mock.boot (Mock.always (0, 0)) Mock.sysfs_fixed_100 in
  enable_fixed (sysfs_actuator w) = true /\
  fixed_position (sysfs_actuator w) = 100 /\
  sensor_fp5529_actuator_set_position Mock.ops Mock.POS_MAX 2000 w
    = (- EINVAL, w) /\
  trace (snd (sensor_fp5529_actuator_set_position Mock.ops Mock.POS_MAX 0 w))
    = [EvWrite16 REG_VCM_MSB 0 100 0] /\
  position (actuator
    (snd (sensor_fp5529_actuator_set_position Mock.ops Mock.POS_MAX 0 w)))
    = 100.
Proof. vm_compute. repeat split; reflexivity. Qed.

(** C9 on the list whose second position is negative. *)
Lemma init_position_fallback_witness :
  let run :=
    sensor_fp5529_init_position Mock.ops Mock.POS_MAX Mock.the_client
      (Mock.w_at_512 Mock.sysfs_negative) in
  exists r1 r2,
    let plan :=
      [EvWrite16 REG_VCM_MSB 0 100 r1; EvMsleep 20;
       EvWrite16 REG_VCM_MSB 0 180 r2; EvMsleep 10] in
    trace (snd run) =
      trace (Mock.w_at_512 Mock.sysfs_negative) ++ until_failure plan /\
    fst run = last_code 0 (until_failure plan) /\
    (0 <= fst run ->
       until_failure plan = plan /\ position (actuator (snd run)) = 180) /\
    (fst run < 0 ->
       actuator (snd run) = actuator (Mock.w_at_512 Mock.sysfs_negative)).
Proof.
  apply (init_position_fallback Mock.dev Mock.ops Mock.POS_MAX
           Mock.the_client (Mock.w_at_512 Mock.sysfs_negative)).
  - reflexivity.
  - vm_compute. discriminate.
  - right. exists 1. simpl. vm_compute. repeat split; try discriminate.
    left. reflexivity.
  - reflexivity.
Defined.

Example init_position_fallback_trace :
  let run :=
    sensor_fp5529_init_position Mock.ops Mock.POS_MAX Mock.the_client
      (Mock.w_at_512 Mock.sysfs_negative) in
  fst run = 0 /\
  trace (snd run) =
    [EvWrite16 REG_VCM_MSB 0 100 0; EvMsleep 20;
     EvWrite16 REG_VCM_MSB 0 180 0; EvMsleep 10] /\
  position (actuator (snd run)) = 180.
Proof. vm_compute. repeat split; reflexivity. Qed.

(** C10 at a successful call with target 300. *)
Lemma set_position_atomic_witness :
  let run :=
    sensor_fp5529_actuator_set_position Mock.ops Mock.POS_MAX 300
      Mock.w_idle in
  exists p,
    trace (snd run) = trace Mock.w_idle ++ [packed_write p (fst run)] /\
    actuator (snd run) = with_position p (actuator Mock.w_idle).
Proof.
  intros run.
  destruct (set_position_atomic Mock.dev Mock.ops Mock.POS_MAX 300
              Mock.w_idle (fst run) (snd run) eq_refl) as (_ & _ & _ & H).
  apply H. vm_compute. discriminate.
Defined.

(** A call that meets a failing bus: logged, refused, position kept. *)
Example set_position_bus_failure :
  let w := Mock.boot (Mock.always (-5, 0)) Mock.no_sysfs in
  let run :=
    sensor_fp5529_actuator_set_position Mock.ops Mock.POS_MAX 300 w in
  fst run = -5 /\
  trace (snd run) = [EvWrite16 REG_VCM_MSB 1 44 (-5)] /\
  actuator (snd run) = actuator w.
Proof. vm_compute. repeat split; reflexivity. Qed.

(** * Concrete runs for the further properties *)

Local Abbreviation mock_ioctl :=
  (sensor_fp5529_actuator_ioctl Mock.ops Mock.POS_MAX Mock.NO_BUSY
     Mock.BUSY Mock.LANDING_FAIL Mock.CID_GET_STATUS Mock.CID_SET_POSITION
     Mock.CID_SOFT_LANDING Mock.IOCTL_S_CTRL Mock.IOCTL_G_CTRL true
     (fun _ => 0)).

Lemma write_position_round_trip_witness :
  let run :=
    sensor_fp5529_write_position Mock.ops Mock.POS_MAX Mock.the_client 528
      Mock.w_idle in
  exists high low,
    trace (snd run) =
      trace Mock.w_idle ++ [EvWrite16 REG_VCM_MSB high low (fst run)] /\
    0 <= high < 4 /\ 0 <= low < 256 /\
    Z.lor (Z.shiftl (Z.land high 0x03) 8) low = 528.
Proof.
  apply (write_position_round_trip Mock.dev Mock.ops Mock.POS_MAX
           Mock.the_client 528 Mock.w_idle).
  - reflexivity.
  - unfold Mock.POS_MAX. lia.
  - unfold Mock.POS_MAX. lia.
  - reflexivity.
Defined.

Lemma g_ctrl_reports_status_witness :
  let run :=
    sensor_fp5529_actuator_g_ctrl Mock.ops Mock.NO_BUSY Mock.BUSY
      Mock.CID_GET_STATUS {| id := Mock.CID_GET_STATUS; value := 0 |}
      Mock.w_busy in
  id (snd (fst run)) = Mock.CID_GET_STATUS /\
  actuator (snd run) = actuator Mock.w_busy.
Proof.
  intros run.
  destruct (g_ctrl_reports_status Mock.dev Mock.ops Mock.NO_BUSY Mock.BUSY
              Mock.CID_GET_STATUS
              {| id := Mock.CID_GET_STATUS; value := 0 |} Mock.w_busy
              (fst (fst run)) (snd (fst run)) (snd run))
    as (Hid & Ha & _).
  - reflexivity.
  - reflexivity.
  - split; [exact Hid | exact Ha].
Defined.

Example g_ctrl_busy_value :
  sensor_fp5529_actuator_g_ctrl Mock.ops Mock.NO_BUSY Mock.BUSY
    Mock.CID_GET_STATUS {| id := Mock.CID_GET_STATUS; value := 0 |}
    Mock.w_busy
  = (0, {| id := Mock.CID_GET_STATUS; value := Mock.BUSY |},
     {| hw := Mock.always (0, 1);
        trace := [EvRead8 REG_STATUS 0 1];
        actuator := actuator Mock.w_busy;
        sysfs_actuator := Mock.no_sysfs |}).
Proof. vm_compute. reflexivity. Qed.

Lemma ioctl_result_codes_witness :
  let ctrl := {| id := Mock.CID_SET_POSITION; value := 300 |} in
  let run := mock_ioctl Mock.IOCTL_S_CTRL ctrl Mock.w_idle in
  id (snd (fst run)) = id ctrl.
Proof.
  intros ctrl run.
  destruct (ioctl_result_codes Mock.dev Mock.ops Mock.POS_MAX Mock.NO_BUSY
              Mock.BUSY Mock.LANDING_FAIL Mock.CID_GET_STATUS
              Mock.CID_SET_POSITION Mock.CID_SOFT_LANDING Mock.IOCTL_S_CTRL
              Mock.IOCTL_G_CTRL true (fun _ => 0) Mock.IOCTL_S_CTRL ctrl
              Mock.w_idle (fst (fst run)) (snd (fst run)) (snd run))
    as (Hid & _).
  - reflexivity.
  - exact Hid.
Defined.

(** A failing bus under a set-position control: the caller sees
    [-EINVAL], not the bus code. *)
Example ioctl_masks_bus_error :
  fst (fst (mock_ioctl Mock.IOCTL_S_CTRL
              {| id := Mock.CID_SET_POSITION; value := 300 |}
              (Mock.boot (Mock.always (-5, 0)) Mock.no_sysfs)))
  = - EINVAL.
Proof. vm_compute. reflexivity. Qed.

Lemma ioctl_unknown_rejected_witness :
  let ctrl := {| id := Mock.CID_SET_POSITION; value := 300 |} in
  mock_ioctl 99 ctrl Mock.w_idle = (- EINVAL, ctrl, Mock.w_idle).
Proof.
  intros ctrl.
  apply (ioctl_unknown_rejected Mock.dev Mock.ops Mock.POS_MAX Mock.NO_BUSY
           Mock.BUSY Mock.LANDING_FAIL Mock.CID_GET_STATUS
           Mock.CID_SET_POSITION Mock.CID_SOFT_LANDING Mock.IOCTL_S_CTRL
           Mock.IOCTL_G_CTRL true (fun _ => 0) 99 ctrl Mock.w_idle).
  - intros H. discriminate H.
  - intros H. discriminate H.
Defined.

Lemma ioctl_set_position_negative_witness :
  let ctrl := {| id := Mock.CID_SET_POSITION; value := -5 |} in
  mock_ioctl Mock.IOCTL_S_CTRL ctrl Mock.w_idle
  = (- EINVAL, ctrl, Mock.w_idle).
Proof.
  intros ctrl.
  apply (ioctl_set_position_negative Mock.dev Mock.ops Mock.POS_MAX
           Mock.NO_BUSY Mock.BUSY Mock.LANDING_FAIL Mock.CID_GET_STATUS
           Mock.CID_SET_POSITION Mock.CID_SOFT_LANDING Mock.IOCTL_S_CTRL
           Mock.IOCTL_G_CTRL true (fun _ => 0) ctrl Mock.w_idle).
  - reflexivity.
  - reflexivity.
  - simpl. lia.
Defined.

Lemma ioctl_set_position_done_witness :
  let ctrl := {| id := Mock.CID_SET_POSITION; value := 300 |} in
  let run := mock_ioctl Mock.IOCTL_S_CTRL ctrl Mock.w_idle in
  snd (fst run) = ctrl /\
  0 <= 300 <= Mock.POS_MAX /\
  trace (snd run) = trace Mock.w_idle ++ [packed_write 300 0] /\
  actuator (snd run) = with_position 300 (actuator Mock.w_idle).
Proof.
  intros ctrl run.
  apply (ioctl_set_position_done Mock.dev Mock.ops Mock.POS_MAX
           Mock.NO_BUSY Mock.BUSY Mock.LANDING_FAIL Mock.CID_GET_STATUS
           Mock.CID_SET_POSITION Mock.CID_SOFT_LANDING Mock.IOCTL_S_CTRL
           Mock.IOCTL_G_CTRL true (fun _ => 0) ctrl Mock.w_idle
           (snd (fst run)) (snd run)).
  - reflexivity.
  - reflexivity.
  - reflexivity.
  - simpl. lia.
  - reflexivity.
Defined.

Lemma wait_busy_budget_witness :
  let run :=
    sensor_fp5529_actuator_wait_busy Mock.ops Mock.NO_BUSY Mock.BUSY 0
      Mock.w_busy in
  exists evs,
    trace (snd run) = trace Mock.w_busy ++ EvMsleep 5 :: evs /\
    Forall poll_or_sleep evs /\
    writes (EvMsleep 5 :: evs) = [] /\
    5 <= slept (EvMsleep 5 :: evs) <= 155.
Proof.
  intros run.
  apply (wait_busy_budget Mock.dev Mock.ops Mock.NO_BUSY Mock.BUSY 0
           Mock.w_busy (fst run) (snd run)).
  vm_compute. reflexivity.
Defined.

(** On the always-busy bus the whole budget is spent. *)
Example wait_busy_worst_case :
  slept (trace (snd (sensor_fp5529_actuator_wait_busy Mock.ops Mock.NO_BUSY
                       Mock.BUSY 0 Mock.w_busy))) = 155.
Proof. vm_compute. reflexivity. Qed.

Lemma wait_busy_stops_at_first_idle_witness :
  let run :=
    sensor_fp5529_actuator_wait_busy Mock.ops Mock.NO_BUSY Mock.BUSY 0
      Mock.w_busy_twice in
  fst run = 0 /\
  exists evs,
    trace (snd run) = trace Mock.w_busy_twice ++ EvMsleep 5 :: evs /\
    status_reads evs = 3%nat /\
    slept (EvMsleep 5 :: evs) = 25.
Proof.
  intros run.
  apply (wait_busy_stops_at_first_idle Mock.dev Mock.ops Mock.NO_BUSY
           Mock.BUSY 2%nat 0 Mock.w_busy_twice (fst run) (snd run)).
  - discriminate.
  - discriminate.
  - lia.
  - vm_compute. repeat split; discriminate.
  - vm_compute. reflexivity.
Defined.

Lemma init_position_footprint_witness :
  let w := Mock.boot (Mock.always (-5, 0)) Mock.sysfs_two_steps in
  let run :=
    sensor_fp5529_init_position Mock.ops Mock.POS_MAX Mock.the_client w in
  actuator (snd run) = actuator w.
Proof.
  intros w run.
  destruct (init_position_footprint Mock.dev Mock.ops Mock.POS_MAX
              Mock.the_client w (fst run) (snd run)) as (_ & H).
  - reflexivity.
  - apply H. reflexivity.
Defined.


(** The same run, evaluated: the first entry is written, the second is
    refused, and the position recorded stays 512. *)
Example init_position_too_far_trace :
  let run :=
    sensor_fp5529_init_position Mock.ops Mock.POS_MAX Mock.the_client
      (Mock.w_at_512 Mock.sysfs_too_far) in
  fst run = - EINVAL /\
  trace (snd run) = [EvWrite16 REG_VCM_MSB 0 100 0; EvMsleep 10] /\
  position (actuator (snd run)) = 512.
Proof. vm_compute. repeat split; reflexivity. Qed.

Lemma valid_check_decides_witness :
  let w := Mock.w_at_512 Mock.sysfs_negative in
  let run := sensor_fp5529_valid_check Mock.the_client w in
  snd run = w /\
  ((init_list_valid (sysfs_actuator w) /\
    fst run = init_step (sysfs_actuator w) /\ 0 < fst run) \/
   (init_list_rejected (sysfs_actuator w) /\ fst run = 0)).
Proof.
  intros w run.
  apply (valid_check_decides Mock.dev Mock.the_client w (fst run) (snd run)).
  reflexivity.
Defined.

Lemma init_calibration_truncated_witness :
  sensor_fp5529_init Mock.ops Mock.PWR_ON Mock.the_client
    (Some Mock.cal_2_3_16) Mock.w_idle =
  sensor_fp5529_init Mock.ops Mock.PWR_ON Mock.the_client
    (Some {| control_mode := 0xA; prescale := 0x103; acctime := 0x110 |})
    Mock.w_idle.
Proof.
  apply (init_calibration_truncated Mock.dev Mock.ops Mock.PWR_ON
           Mock.the_client Mock.cal_2_3_16
           {| control_mode := 0xA; prescale := 0x103; acctime := 0x110 |}
           Mock.w_idle); reflexivity.
Defined.

Lemma actuator_init_phases_witness :
  let w := Mock.w_at_512 Mock.sysfs_two_steps in
  let run :=
    sensor_fp5529_actuator_init Mock.ops Mock.POS_MAX Mock.PWR_ON true None
      (set_hw {| Mock.script := repeat (0, 0) 6; Mock.idle := (-5, 0) |} w) in
  fst run < 0 /\ actuator (snd run) = actuator w.
Proof.
  intros w run.
  destruct (actuator_init_phases Mock.dev Mock.ops Mock.POS_MAX Mock.PWR_ON
              true None
              (set_hw {| Mock.script := repeat (0, 0) 6;
                         Mock.idle := (-5, 0) |} w)
              (fst run) (snd run)) as (_ & H & _).
  - reflexivity.
  - split; [reflexivity |]. apply H. reflexivity.
Defined.

(** A full initialisation on an idle bus with no list: the five register
    writes, then the default two-step move. *)
Example actuator_init_default_trace :
  let run :=
    sensor_fp5529_actuator_init Mock.ops Mock.POS_MAX Mock.PWR_ON true None
      Mock.w_idle in
  fst run = 0 /\
  trace (snd run) =
    [EvWrite8 REG_CONTROL 1 0; EvWrite8 REG_CONTROL 0 0;
     EvUsleepRange 5000 5000; EvWrite8 REG_CONTROL 2 0;
     EvWrite8 REG_ACC_MODE 1 0; EvWrite8 REG_ACC_TIME 0x36 0;
     EvWrite16 REG_VCM_MSB 0 100 0; EvMsleep 20;
     EvWrite16 REG_VCM_MSB 0 180 0; EvMsleep 10] /\
  position (actuator (snd run)) = 180.
Proof. vm_compute. repeat split; reflexivity. Qed.


Lemma soft_landing_write_order_witness :
  let run :=
    sensor_fp5529_actuator_soft_landing Mock.ops Mock.NO_BUSY Mock.BUSY
      Mock.LANDING_FAIL (fun _ => 0) Mock.w_at_400 in
  exists v r1 r2 r3 r4,
    let plan :=
      [EvWrite8 REG_PRESET v r1;
       EvWrite8 REG_CONTROL 0x02 r2;
       EvWrite8 REG_ACC_MODE 0xA1 r3;
       EvWrite8 REG_LAD_EN 0x01 r4] in
    0 <= v <= 255 /\
    ((writes (trace (snd run)) = writes (trace Mock.w_at_400) /\
      fst run < 0) \/
     (writes (trace (snd run)) =
        writes (trace Mock.w_at_400) ++ until_failure plan /\
      ((0 <= r1 /\ 0 <= r2 /\ 0 <= r3 /\ 0 <= r4) \/
       (fst run < 0 /\ fst run = last_code 0 (until_failure plan))))).
Proof.
  intros run.
  apply (soft_landing_write_order Mock.dev Mock.ops Mock.NO_BUSY Mock.BUSY
           Mock.LANDING_FAIL (fun _ => 0) Mock.w_at_400).
  vm_compute. reflexivity.
Defined.

Example soft_landing_writes_evaluated :
  writes (trace (snd (sensor_fp5529_actuator_soft_landing Mock.ops
                        Mock.NO_BUSY Mock.BUSY Mock.LANDING_FAIL
                        (fun _ => 0) Mock.w_at_400))) =
  [EvWrite8 REG_PRESET 200 0; EvWrite8 REG_CONTROL 0x02 0;
   EvWrite8 REG_ACC_MODE 0xA1 0; EvWrite8 REG_LAD_EN 0x01 0].
Proof. vm_compute. reflexivity. Qed.

Lemma soft_landing_preset_value_witness :
  let w1 :=
    snd (sensor_fp5529_actuator_wait_busy Mock.ops Mock.NO_BUSY Mock.BUSY 0
           Mock.w_at_400) in
  let run :=
    soft_landing_stages Mock.ops Mock.NO_BUSY Mock.BUSY (fun _ => 0)
      Mock.w_at_400 in
  exists r post,
    trace (snd run) = trace w1 ++
      [EvRead8 REG_VCM_MSB 0 0x01; EvRead8 REG_VCM_LSB 0 0x90;
       EvWrite8 REG_PRESET 200 r] ++ post.
Proof.
  intros w1 run.
  assert (Ha : addr8_read8 Mock.ops (hw w1) REG_VCM_MSB =
               (0, 0x01, {| Mock.script := [(0, 0x90)];
                            Mock.idle := (0, 0) |}))
    by (vm_compute; reflexivity).
  assert (Hb : addr8_read8 Mock.ops
                 {| Mock.script := [(0, 0x90)]; Mock.idle := (0, 0) |}
                 REG_VCM_LSB = (0, 0x90, Mock.always (0, 0)))
    by (vm_compute; reflexivity).
  assert (Hrun : soft_landing_stages Mock.ops Mock.NO_BUSY Mock.BUSY
                   (fun _ => 0) Mock.w_at_400 = (fst run, snd run))
    by (vm_compute; reflexivity).
  assert (H0 : 0 <= 0) by lia.
  exact (soft_landing_preset_value Mock.dev Mock.ops Mock.NO_BUSY Mock.BUSY
           (fun _ => 0) Mock.w_at_400 (fst run) (snd run)
           0 0x01 _ 0 0x90 _ Ha H0 Hb H0 Hrun).
Defined.
